(** * The publish script of react-scripts ([scripts/publish.js])

    A shallow embedding of [packages/react-scripts/scripts/publish.js]:
    the URL clean-up [deslashUrl], the selection of the files to upload,
    the helpers around the object store and the build, the asynchronous
    [publish] function and the top-level script that checks the command
    line and starts it.

    Strings are Rocq strings.  Every character the script inspects
    ([/], [:], [a]-[z], the file suffixes) is ASCII, so the embedding does
    not depend on how other characters are encoded. *)

From Stdlib Require Import String Ascii List Bool Arith ZArith Lia.
Import ListNotations.

Local Open Scope string_scope.
Local Open Scope bool_scope.

(** ** JavaScript values held by the parsed command line

    commander stores [undefined] for an option that was not given, a string
    for an option given with a value, and [true] for an option declared with
    an optional value ([[value]]) and given without one; [--source-maps]
    has the default [false]. *)

Inductive jsval : Type :=
| JUndefined
| JBool (b : bool)
| JString (s : string).

(** ToBoolean, as applied by [if], [||] and [&&]. *)
Definition truthy (v : jsval) : bool :=
  match v with
  | JUndefined => false
  | JBool b => b
  | JString s => negb (s =? "")
  end.

(** ToString, as applied by [+] on strings and by template literals. *)
Definition toStr (v : jsval) : string :=
  match v with
  | JUndefined => "undefined"
  | JBool true => "true"
  | JBool false => "false"
  | JString s => s
  end.

(** [typeof v === 'undefined'] *)
Definition is_undefined (v : jsval) : bool :=
  match v with
  | JUndefined => true
  | _ => false
  end.

(** ** [deslashUrl]

    [url.replace(/(?<![a-z]+:)\/\//g, '/')].  With the [g] flag the pattern is
    tried at every position from left to right; after a match the search
    resumes behind the two matched characters.  The look-behind is evaluated
    on the original text in front of the position, kept here reversed in
    [before]. *)

Definition is_lower (c : ascii) : bool :=
  Nat.leb 97 (nat_of_ascii c) && Nat.leb (nat_of_ascii c) 122.

(** Does the text in front of the position end with [[a-z]+:] ?  One letter
    in front of the colon is enough for [[a-z]+]. *)
Definition scheme_behind (before : list ascii) : bool :=
  match before with
  | ":"%char :: c :: _ => is_lower c
  | _ => false
  end.

Definition is_slash (c : ascii) : bool := (c =? "/")%char.

Fixpoint deslash_from (before : list ascii) (s : string) : string :=
  match s with
  | EmptyString => EmptyString
  | String c rest =>
      match rest with
      | EmptyString => String c EmptyString
      | String c' rest' =>
          if is_slash c && is_slash c' && negb (scheme_behind before)
          then String "/" (deslash_from (c' :: c :: before) rest')
          else String c (deslash_from (c :: before) rest)
      end
  end.

Definition deslashUrl (url : string) : string := deslash_from [] url.

(** Two adjacent slashes somewhere in a string. *)
Fixpoint has_double_slash (s : string) : bool :=
  match s with
  | EmptyString => false
  | String c rest =>
      match rest with
      | EmptyString => false
      | String c' _ => (is_slash c && is_slash c') || has_double_slash rest
      end
  end.

(** A colon somewhere in a string; a string without one has no scheme. *)
Fixpoint has_colon (s : string) : bool :=
  match s with
  | EmptyString => false
  | String c rest => (c =? ":")%char || has_colon rest
  end.

(** Three adjacent slashes somewhere in a string. *)
Fixpoint has_triple_slash (s : string) : bool :=
  match s with
  | EmptyString => false
  | String c rest =>
      match rest with
      | String c' (String c'' _) =>
          (is_slash c && is_slash c' && is_slash c'') || has_triple_slash rest
      | _ => false
      end
  end.

(** The look-behind of [deslashUrl] reads the two characters in front of the
    position: two texts agree for it when their last characters are the same
    and the look-behind gives the same answer on both. *)
Definition same_behind (b b' : list ascii) : Prop :=
  hd_error b = hd_error b' /\ scheme_behind b = scheme_behind b'.



(** A slash somewhere in a string. *)
Fixpoint has_slash (s : string) : bool :=
  match s with
  | EmptyString => false
  | String c rest => is_slash c || has_slash rest
  end.

(** A string with its slashes taken out. *)
Fixpoint without_slashes (s : string) : string :=
  match s with
  | EmptyString => EmptyString
  | String c rest =>
      if is_slash c then without_slashes rest else String c (without_slashes rest)
  end.

(** The characters of a text, the last one first: the shape in which
    [deslash_from] keeps what it has passed. *)
Definition passed (s : string) : list ascii := rev (list_ascii_of_string s).

(** ** File selection *)

(** [s.endsWith(suffix)]: the last [length suffix] characters of [s] are
    [suffix]; false when [s] is shorter. *)
Definition endsWith (s suffix : string) : bool :=
  let n := String.length s in
  let m := String.length suffix in
  if Nat.leb m n then substring (n - m) m s =? suffix else false.

(** [files.filter(f => f.endsWith('.js') || (sourceMaps && f.endsWith('.js.map')))
         .filter(f => f !== 'service-worker.js')] *)
Definition jsFiles (sourceMaps : jsval) (files : list string) : list string :=
  filter (fun f => negb (f =? "service-worker.js"))
    (filter (fun f => endsWith f ".js" || (truthy sourceMaps && endsWith f ".js.map"))
       files).

(** [files.filter(f => f.endsWith('.css') || (sourceMaps && f.endsWith('.css.map')))] *)
Definition cssFiles (sourceMaps : jsval) (files : list string) : list string :=
  filter (fun f => endsWith f ".css" || (truthy sourceMaps && endsWith f ".css.map"))
    files.

(** [localPath.replace(/\/$/, '')]: one slash at the very end is dropped. *)
Fixpoint stripTrailingSlash (s : string) : string :=
  match s with
  | EmptyString => EmptyString
  | String c rest =>
      match rest with
      | EmptyString => if is_slash c then EmptyString else s
      | String _ _ => String c (stripTrailingSlash rest)
      end
  end.

(** ** Effects

    What a run does to the outside world is recorded as a sequence of events,
    in the order in which the script issues them. *)

Inductive Event : Type :=
| Log (line : string)
    (** [console.log], the arguments joined by single spaces *)
| ErrLog (line : string)
    (** [console.error] *)
| ListObjects (Bucket Prefix : string)
    (** [s3.listObjects({ Bucket, Prefix })] *)
| Spawn (PUBLIC_URL : string)
    (** [spawn('npm', ['run-script', 'build'], { env: { ..., PUBLIC_URL } })] *)
| ReadDir (path : string)
    (** [fs.readdirSync(path)] *)
| Uploading (Bucket Key file ContentType : string)
    (** entry into [uploadFileToS3(bucket, key, file, type)]; its first
        statement prints ['Uploading', file, 'to', key] *)
| ReadFile (file : string)
    (** [fs.readFileSync(file)] *)
| PutObject (Bucket Key Body ACL ContentType : string)
    (** [s3.putObject({ Bucket, Key, Body, ACL, ContentType })] *).

(** The value a promise is rejected with, or that is thrown. *)
Inductive JsError : Type :=
| ErrorObj (message : string)   (** an [Error] object *)
| ErrorCode (code : Z)          (** [reject(code)] in [build] *)
| ErrorNull.                    (** [reject(null)]: the build was killed by a signal *)

(** How the child process of [build] ends. *)
Inductive BuildOutcome : Type :=
| BuildExit (code : Z)          (** ['exit'] with a numeric code *)
| BuildKilled                   (** ['exit'] with code [null] *)
| BuildError (message : string) (** ['error']: the process could not be spawned *).

(** The environment of one run: the project manifest, the bucket, the build
    tool-chain and the local file system, as far as the script observes
    them. *)
Record World : Type := {
  (** [require(appRoot + '/package.json').version]; [None] when [require]
      throws *)
  package_version : option jsval;
  (** the keys stored in a bucket; [None] when the list request fails *)
  bucket_keys : string -> option (list string);
  (** how the build ends, given [PUBLIC_URL] *)
  build_outcome : string -> BuildOutcome;
  (** [fs.readdirSync]; [None] when it throws *)
  readdirSync : string -> option (list string);
  (** [fs.readFileSync]; [None] when it throws *)
  readFileSync : string -> option string;
  (** does the put request for this bucket and key succeed ? *)
  putObject_ok : string -> string -> bool
}.

(** A computation yields the events it issued and either a value, a call of
    [process.exit], or a thrown error (a rejected promise, for an [async]
    function). *)
Inductive Result (A : Type) : Type :=
| Ok (a : A)
| Exit (code : Z)
| Throw (err : JsError).

Arguments Ok {A} a.
Arguments Exit {A} code.
Arguments Throw {A} err.

Definition M (A : Type) : Type := (list Event * Result A)%type.

Definition ret {A} (a : A) : M A := ([], Ok a).

Definition bind {A B} (m : M A) (k : A -> M B) : M B :=
  match m with
  | (t, Ok a) => let (t', r) := k a in ((t ++ t')%list, r)
  | (t, Exit c) => (t, Exit c)
  | (t, Throw e) => (t, Throw e)
  end.

Notation "x <- m ;; k" := (bind m (fun x => k))
  (at level 61, m at next level, right associativity).
Notation "m ;; k" := (bind m (fun _ => k))
  (at level 61, right associativity).

Definition emit (e : Event) : M unit := ([e], Ok tt).
Definition log (line : string) : M unit := emit (Log line).
Definition process_exit {A} (code : Z) : M A := ([], Exit code).
Definition throw {A} (e : JsError) : M A := ([], Throw e).

(** [try { m } catch (e) { handler(e) }] *)
Definition try_catch {A} (m : M A) (handler : JsError -> M A) : M A :=
  match m with
  | (t, Throw e) => let (t', r) := handler e in ((t ++ t')%list, r)
  | other => other
  end.

(** [e.message] *)
Definition message_of (e : JsError) : jsval :=
  match e with
  | ErrorObj m => JString m
  | ErrorCode _ => JUndefined
  | ErrorNull => JUndefined
  end.

(** ** The helpers of the script *)

(** [build(publicUrl)].  [console.error('Build error', err)] prints the error
    object with its stack; the line is represented by the message alone. *)
Definition build (w : World) (publicUrl : string) : M unit :=
  emit (Spawn publicUrl) ;;
  match build_outcome w publicUrl with
  | BuildExit code => if (code =? 0)%Z then ret tt else throw (ErrorCode code)
  | BuildKilled => throw ErrorNull
  | BuildError msg =>
      emit (ErrLog ("Build error " ++ msg)) ;; throw (ErrorObj msg)
  end.

(** [s.startsWith(p)] *)
Definition startsWith (s p : string) : bool := prefix p s.

(** Modelled from the spec: the list-by-prefix call of the object-store
    client, which is not part of the script.  [Contents] holds the stored
    objects whose key begins with [Prefix] (the Store Gateway's [exists] is
    true iff at least one object's key begins with the prefix). *)
Definition listObjects (w : World) (Bucket Prefix : string) : M (list string) :=
  emit (ListObjects Bucket Prefix) ;;
  match bucket_keys w Bucket with
  | Some keys => ret (filter (fun k => startsWith k Prefix) keys)
  | None => throw (ErrorObj "listObjects failed")
  end.

(** [pathExists(bucket, path)]: [list.Contents.length > 0] *)
Definition pathExists (w : World) (bucket path : string) : M bool :=
  list <- listObjects w bucket path ;;
  ret (Nat.ltb 0 (List.length list)).

(** [uploadFileToS3(bucket, key, file, type)].  The messages of the errors
    of [fs] and of the store client are represented by fixed texts. *)
Definition uploadFileToS3 (w : World) (bucket key file type : string) : M unit :=
  emit (Uploading bucket key file type) ;;
  emit (ReadFile file) ;;
  match readFileSync w file with
  | None => throw (ErrorObj ("ENOENT: " ++ file))
  | Some body =>
      emit (PutObject bucket key body "public-read" type) ;;
      if putObject_ok w bucket key then ret tt
      else throw (ErrorObj ("putObject failed: " ++ key))
  end.

Definition uploadJsFileToS3 (w : World) (bucket key file : string) : M unit :=
  uploadFileToS3 w bucket key file "application/javascript".

Definition uploadCssFileToS3 (w : World) (bucket key file : string) : M unit :=
  uploadFileToS3 w bucket key file "text/css".

(** [await Promise.all(uploads)].  The array holds promises of calls that
    have all been started, one after the other, while the array was built:
    their events come in array order.  The join succeeds when every promise
    is fulfilled and is rejected otherwise.  With several rejections the
    error reported is that of the promise settling first; the error of the
    first rejected promise of the array stands for it here. *)
Fixpoint promise_all (uploads : list (M unit)) : M unit :=
  match uploads with
  | [] => ret tt
  | (t, r) :: rest =>
      let (t', r') := promise_all rest in
      ((t ++ t')%list,
       match r with
       | Ok _ => r'
       | Exit c => Exit c
       | Throw e => Throw e
       end)
  end.

(** ** [publish] *)

(** The options object handed over by commander ([program]). *)
Record Program : Type := {
  s3Bucket : jsval;
  s3Path : jsval;
  localPath : jsval;
  appVersion : jsval;
  publicUrlBase : jsval;
  force : jsval;
  sourceMaps : jsval
}.

(** [appVersion || require(appRoot + '/package.json').version].  The message
    of the error thrown by [require] is represented by a fixed text. *)
Definition resolve_version (w : World) (p : Program) : M jsval :=
  if truthy (appVersion p) then ret (appVersion p)
  else match package_version w with
       | Some v => ret v
       | None => throw (ErrorObj "Cannot find module package.json")
       end.

(** [s3Path + '/' + version] *)
Definition versionS3Path (p : Program) (version : jsval) : string :=
  toStr (s3Path p) ++ "/" ++ toStr version.

(** [fs.readdirSync(localPath)].  The message of the error thrown by [fs],
    which the [catch] block prints, is represented by a fixed text. *)
Definition readdir (w : World) (path : string) : M (list string) :=
  emit (ReadDir path) ;;
  match readdirSync w path with
  | Some files => ret files
  | None => throw (ErrorObj ("ENOENT: " ++ path))
  end.

(** [jsUploads.concat(cssUploads)]: the calls started by the two [map]s. *)
Definition uploads (w : World) (bucket vpath lpath : string)
    (js css : list string) : list (M unit) :=
  let jsUploads :=
    map (fun filename =>
           uploadJsFileToS3 w bucket (vpath ++ "/" ++ filename)
             (lpath ++ "/" ++ filename)) js in
  let cssUploads :=
    map (fun filename =>
           uploadCssFileToS3 w bucket (vpath ++ "/" ++ filename)
             (lpath ++ "/" ++ filename)) css in
  (jsUploads ++ cssUploads)%list.

(** The part of [publish] behind the build: lines 101 to 142. *)
Definition publish_built (w : World) (p : Program) (vpath : string) : M unit :=
  lpath <- match localPath p with
           | JString s => ret (stripTrailingSlash s)
           | _ => throw (ErrorObj "localPath.replace is not a function")
           end ;;
  sel <- try_catch
           (files <- readdir w lpath ;;
            ret (jsFiles (sourceMaps p) files, cssFiles (sourceMaps p) files))
           (fun e =>
              log "Couldn't read script path dir." ;;
              log (toStr (message_of e)) ;;
              process_exit 1) ;;
  (if Nat.eqb (List.length (fst sel)) 0
   then log "No main js file found" ;; process_exit 1
   else ret tt) ;;
  promise_all (uploads w (toStr (s3Bucket p)) vpath lpath (fst sel) (snd sel)) ;;
  log "Deployment complete" ;;
  log "Main script can now be found here:" ;;
  log (deslashUrl (toStr (publicUrlBase p) ++ "/" ++ vpath ++ "/main.js")).

Definition publish (w : World) (p : Program) : M unit :=
  version <- resolve_version w p ;;
  log ("Preparing to deploy version " ++ toStr version ++ " from "
       ++ toStr (localPath p) ++ " to " ++ "s3://" ++ toStr (s3Bucket p)
       ++ "/" ++ toStr (s3Path p)) ;;
  let vpath := versionS3Path p version in
  exists_ <- pathExists w (toStr (s3Bucket p)) vpath ;;
  (if exists_ : bool then
     log ("Version " ++ toStr version ++ " already exists in S3.") ;;
     if truthy (force p) then log "Force flag is set, overwriting."
     else
       log "If you wish to overwrite it please specify the --force option and run the script again." ;;
       process_exit 1
   else ret tt) ;;
  log "Building app" ;;
  build w (deslashUrl (toStr (publicUrlBase p) ++ "/" ++ vpath ++ "/")) ;;
  publish_built w p vpath.

(** ** The top level of the script *)

Definition required : list string := ["s3Bucket"; "s3Path"; "localPath"].

(** [program[opt]] *)
Definition program_get (p : Program) (opt : string) : jsval :=
  if opt =? "s3Bucket" then s3Bucket p
  else if opt =? "s3Path" then s3Path p
  else if opt =? "localPath" then localPath p
  else if opt =? "appVersion" then appVersion p
  else if opt =? "publicUrlBase" then publicUrlBase p
  else if opt =? "force" then force p
  else if opt =? "sourceMaps" then sourceMaps p
  else JUndefined.

(** [for (const opt of required) { if (typeof program[opt] === 'undefined') ... }] *)
Fixpoint check_required (p : Program) (opts : list string) : M unit :=
  match opts with
  | [] => ret tt
  | opt :: rest =>
      (if is_undefined (program_get p opt)
       then log ("Missing required argument " ++ opt) ;; process_exit 1
       else ret tt) ;;
      check_required p rest
  end.

Definition main (w : World) (p : Program) : M unit :=
  check_required p required ;;
  publish w p.

(** How the process ends. *)
Inductive Outcome : Type :=
| Completed                 (** [publish] was fulfilled; node ends with status 0 *)
| Exited (code : Z)         (** [process.exit(code)] *)
| Crashed (err : JsError).  (** the rejection of [publish] was rethrown *)

(** The ['unhandledRejection'] handler: [console.error('Publish failed with:',
    err.message)], [console.trace()], [throw err].  Reading [message] from
    [null] throws before anything is printed. *)
Definition unhandledRejection (err : JsError) : list Event :=
  match err with
  | ErrorNull => []
  | _ => [ErrLog ("Publish failed with: " ++ toStr (message_of err)); ErrLog "Trace"]
  end.

Definition run (w : World) (p : Program) : list Event * Outcome :=
  match main w p with
  | (t, Ok _) => (t, Completed)
  | (t, Exit c) => (t, Exited c)
  | (t, Throw e) => ((t ++ unhandledRejection e)%list, Crashed e)
  end.

(** The exit status of the process; node ends with status 1 on an uncaught
    exception. *)
Definition exit_status (o : Outcome) : Z :=
  match o with
  | Completed => 0
  | Exited c => c
  | Crashed _ => 1
  end.

(** ** Observations on a trace *)

Definition is_spawn (e : Event) : bool :=
  match e with Spawn _ => true | _ => false end.

(** An upload: the call of [uploadFileToS3] or the put request it sends. *)
Definition is_upload (e : Event) : bool :=
  match e with Uploading _ _ _ _ | PutObject _ _ _ _ _ => true | _ => false end.

Definition is_upload_call (e : Event) : bool :=
  match e with Uploading _ _ _ _ => true | _ => false end.

Definition is_put (e : Event) : bool :=
  match e with PutObject _ _ _ _ _ => true | _ => false end.

(** A request to the object store, reading or writing. *)
Definition is_store_op (e : Event) : bool :=
  match e with
  | ListObjects _ _ | PutObject _ _ _ _ _ | Uploading _ _ _ _ => true
  | _ => false
  end.

Definition none_of (f : Event -> bool) (t : list Event) : Prop :=
  existsb f t = false.

(** ** Vocabulary of the statements *)

(** The listing of the classification example. *)
Definition listing : list string :=
  ["app.js"; "app.js.map"; "style.css"; "service-worker.js"; "readme.txt"].

(** The events of the stages up to and including the build. *)
Definition is_early (e : Event) : bool :=
  match e with
  | Log _ | ErrLog _ | ListObjects _ _ | Spawn _ => true
  | _ => false
  end.

(** The three lines printed at the end of a successful run. *)
Definition done_lines (p : Program) (vpath : string) : list Event :=
  [Log "Deployment complete";
   Log "Main script can now be found here:";
   Log (deslashUrl (toStr (publicUrlBase p) ++ "/" ++ vpath ++ "/main.js"))].

(** The upload calls of one class, started by one [map]. *)
Definition upload_calls (bucket vpath lpath type : string) (names : list string)
  : list Event :=
  map (fun filename =>
         Uploading bucket (vpath ++ "/" ++ filename) (lpath ++ "/" ++ filename) type)
    names.

(** The put requests of one class: one for each file that can be read. *)
Definition put_requests (w : World) (bucket vpath lpath type : string)
    (names : list string) : list Event :=
  flat_map (fun filename =>
              match readFileSync w (lpath ++ "/" ++ filename) with
              | Some body =>
                  [PutObject bucket (vpath ++ "/" ++ filename) body "public-read" type]
              | None => []
              end)
    names.

(** Whether the upload of a file, under its key, goes through. *)
Definition upload_succeeds (w : World) (bucket vpath lpath : string)
    (filename : string) : Prop :=
  (exists body, readFileSync w (lpath ++ "/" ++ filename) = Some body) /\
  putObject_ok w bucket (vpath ++ "/" ++ filename) = true.

(** The first option of the [required] list that is missing. *)
Definition first_missing (p : Program) : option string :=
  find (fun opt => is_undefined (program_get p opt)) required.

(** [deslashUrl(`${publicUrlBase}/${versionS3Path}/`)], the [PUBLIC_URL] of
    the build. *)
Definition public_url (p : Program) (version : jsval) : string :=
  deslashUrl (toStr (publicUrlBase p) ++ "/" ++ versionS3Path p version ++ "/").

(** The first line [publish] prints. *)
Definition preparing_line (p : Program) (version : jsval) : string :=
  "Preparing to deploy version " ++ toStr version ++ " from "
  ++ toStr (localPath p) ++ " to " ++ "s3://" ++ toStr (s3Bucket p)
  ++ "/" ++ toStr (s3Path p).

Definition is_log (e : Event) : bool :=
  match e with Log _ => true | _ => false end.

Definition is_list (e : Event) : bool :=
  match e with ListObjects _ _ => true | _ => false end.

Definition is_errlog (e : Event) : bool :=
  match e with ErrLog _ => true | _ => false end.

(** The two events every run that knows its version starts with. *)
Definition head_events (p : Program) (version : jsval) : list Event :=
  [Log (preparing_line p version);
   ListObjects (toStr (s3Bucket p)) (versionS3Path p version)].

(** The lines printed when the version is found and is overwritten. *)
Definition overwrite_lines (version : jsval) (found : bool) : list Event :=
  if found
  then [Log ("Version " ++ toStr version ++ " already exists in S3.");
        Log "Force flag is set, overwriting."]
  else [].

(** Is the version path found in the bucket ? *)
Definition found_in (keys : list string) (p : Program) (version : jsval) : bool :=
  existsb (fun k => startsWith k (versionS3Path p version)) keys.

(** The ways a run can go, with the events it issues and how it ends:
    a required option is missing; the version cannot be resolved; the list
    request fails; the version exists and is not to be overwritten; the
    build fails; the build succeeds and [publish_built] decides the rest. *)
Inductive RunShape (w : World) (p : Program) : list Event -> Outcome -> Prop :=
| run_missing_option (opt : string) :
    first_missing p = Some opt ->
    RunShape w p [Log ("Missing required argument " ++ opt)] (Exited 1)
| run_no_version (e : JsError) :
    first_missing p = None ->
    snd (resolve_version w p) = Throw e ->
    RunShape w p (unhandledRejection e) (Crashed e)
| run_list_failed (v : jsval) :
    first_missing p = None ->
    snd (resolve_version w p) = Ok v ->
    bucket_keys w (toStr (s3Bucket p)) = None ->
    RunShape w p
      (head_events p v ++ unhandledRejection (ErrorObj "listObjects failed"))%list
      (Crashed (ErrorObj "listObjects failed"))
| run_conflict (v : jsval) (keys : list string) :
    first_missing p = None ->
    snd (resolve_version w p) = Ok v ->
    bucket_keys w (toStr (s3Bucket p)) = Some keys ->
    found_in keys p v = true ->
    truthy (force p) = false ->
    RunShape w p
      (head_events p v ++
       [Log ("Version " ++ toStr v ++ " already exists in S3.");
        Log "If you wish to overwrite it please specify the --force option and run the script again."])%list
      (Exited 1)
| run_build_failed (v : jsval) (keys : list string) (t : list Event) (e : JsError) :
    first_missing p = None ->
    snd (resolve_version w p) = Ok v ->
    bucket_keys w (toStr (s3Bucket p)) = Some keys ->
    found_in keys p v = false \/ truthy (force p) = true ->
    build w (public_url p v) = (t, Throw e) ->
    RunShape w p
      (head_events p v ++ overwrite_lines v (found_in keys p v) ++
       Log "Building app" :: t ++ unhandledRejection e)%list
      (Crashed e)
| run_built (v : jsval) (keys : list string) :
    first_missing p = None ->
    snd (resolve_version w p) = Ok v ->
    bucket_keys w (toStr (s3Bucket p)) = Some keys ->
    found_in keys p v = false \/ truthy (force p) = true ->
    build_outcome w (public_url p v) = BuildExit 0 ->
    RunShape w p
      (head_events p v ++ overwrite_lines v (found_in keys p v) ++
       Log "Building app" :: Spawn (public_url p v) ::
       fst (publish_built w p (versionS3Path p v)) ++
       match snd (publish_built w p (versionS3Path p v)) with
       | Throw e => unhandledRejection e
       | _ => []
       end)%list
      match snd (publish_built w p (versionS3Path p v)) with
      | Ok _ => Completed
      | Exit c => Exited c
      | Throw e => Crashed e
      end.

(** The same environment with another content of the buckets. *)
Definition with_bucket_keys (w : World) (keys : string -> option (list string))
  : World := {|
  package_version := package_version w;
  bucket_keys := keys;
  build_outcome := build_outcome w;
  readdirSync := readdirSync w;
  readFileSync := readFileSync w;
  putObject_ok := putObject_ok w
|}.

(** The same environment with another project manifest. *)
Definition with_package_version (w : World) (m : option jsval) : World := {|
  package_version := m;
  bucket_keys := bucket_keys w;
  build_outcome := build_outcome w;
  readdirSync := readdirSync w;
  readFileSync := readFileSync w;
  putObject_ok := putObject_ok w
|}.

(** ** Sample runs *)

(** A bucket that holds version 1.2.3 of the application under [app], and a
    project at version 1.2 whose build leaves four files. *)
Definition demo_world : World := {|
  package_version := Some (JString "1.2");
  bucket_keys := fun _ => Some ["app/1.2.3/main.js"];
  build_outcome := fun _ => BuildExit 0;
  readdirSync := fun _ => Some ["app.js"; "app.js.map"; "style.css"; "service-worker.js"];
  readFileSync := fun f => Some ("body of " ++ f);
  putObject_ok := fun _ _ => true
|}.

Definition demo_program (f : jsval) : Program := {|
  s3Bucket := JString "bucket";
  s3Path := JString "app";
  localPath := JString "build/static/";
  appVersion := JUndefined;
  publicUrlBase := JString "https://cdn.example.com/";
  force := f;
  sourceMaps := JBool false
|}.

(** An empty bucket and a build that leaves style sheets only. *)
Definition css_world : World := {|
  package_version := Some (JString "1.0.0");
  bucket_keys := fun _ => Some [];
  build_outcome := fun _ => BuildExit 0;
  readdirSync := fun _ => Some ["style.css"; "theme.css"];
  readFileSync := fun f => Some ("body of " ++ f);
  putObject_ok := fun _ _ => true
|}.

(** An empty bucket and a build that leaves a script and a style sheet. *)
Definition fresh_world : World := {|
  package_version := Some (JString "1.0.0");
  bucket_keys := fun _ => Some [];
  build_outcome := fun _ => BuildExit 0;
  readdirSync := fun _ => Some ["main.js"; "main.css"];
  readFileSync := fun f => Some ("body of " ++ f);
  putObject_ok := fun _ _ => true
|}.

(** A command line with [--s3-bucket], [--s3-path], [--local-path] and
    [--app-version], and without [--public-url-base]. *)
Definition no_base_program : Program := {|
  s3Bucket := JString "bucket";
  s3Path := JString "app";
  localPath := JString "build";
  appVersion := JString "2.0";
  publicUrlBase := JUndefined;
  force := JUndefined;
  sourceMaps := JBool false
|}.

(** The same command line with another value of [--force]. *)
Definition with_force (p : Program) (f : jsval) : Program := {|
  s3Bucket := s3Bucket p;
  s3Path := s3Path p;
  localPath := localPath p;
  appVersion := appVersion p;
  publicUrlBase := publicUrlBase p;
  force := f;
  sourceMaps := sourceMaps p
|}.

(** The environment of [fresh_world] without a project manifest. *)
Definition no_manifest_world : World := with_package_version fresh_world None.

(** The environment of [fresh_world] with a store that cannot be reached. *)
Definition offline_world : World := with_bucket_keys fresh_world (fun _ => None).

(** An empty bucket and a build that ends with code 2 when it is given the
    [PUBLIC_URL] of version 1.0.0 under [app], and with code 0 otherwise. *)
Definition picky_build_world : World := {|
  package_version := Some (JString "1.0.0");
  bucket_keys := fun _ => Some [];
  build_outcome := fun url =>
    if url =? "https://cdn.example.com/app/1.0.0/" then BuildExit 2 else BuildExit 0;
  readdirSync := fun _ => Some ["main.js"; "main.css"];
  readFileSync := fun f => Some ("body of " ++ f);
  putObject_ok := fun _ _ => true
|}.

(** An empty bucket, a build that succeeds, and no directory to read. *)
Definition unreadable_world : World := {|
  package_version := Some (JString "1.0.0");
  bucket_keys := fun _ => Some [];
  build_outcome := fun _ => BuildExit 0;
  readdirSync := fun _ => None;
  readFileSync := fun _ => None;
  putObject_ok := fun _ _ => true
|}.

(** An empty bucket that refuses the script [main.js] of version 1.0.0 and
    takes everything else. *)
Definition partial_world : World := {|
  package_version := Some (JString "1.0.0");
  bucket_keys := fun _ => Some [];
  build_outcome := fun _ => BuildExit 0;
  readdirSync := fun _ => Some ["main.js"; "main.css"];
  readFileSync := fun f => Some ("body of " ++ f);
  putObject_ok := fun _ k => negb (k =? "app/1.0.0/main.js")
|}.

(** A command line without [--s3-path] and without [--local-path]. *)
Definition bucket_only_program : Program := {|
  s3Bucket := JString "bucket";
  s3Path := JUndefined;
  localPath := JUndefined;
  appVersion := JUndefined;
  publicUrlBase := JString "https://cdn.example.com";
  force := JUndefined;
  sourceMaps := JBool false
|}.

(** * Properties *)

(** ** [endsWith] *)

Lemma substring_all (s : string) : substring 0 (String.length s) s = s.
Proof.
  induction s as [|c s IH]; simpl; [reflexivity | now rewrite IH].
Qed.

Lemma endsWith_empty (a : string) : endsWith "" a = true -> a = "".
Proof.
  unfold endsWith; destruct a as [|c a]; simpl; [reflexivity | discriminate].
Qed.

Lemma eqb_length (s t : string) :
  (s =? t) = true -> String.length s = String.length t.
Proof.
  intros H; apply String.eqb_eq in H; now subst.
Qed.

(** [endsWith] one character at a time: a suffix that fits into the tail is a
    suffix of the tail, another one has to be the whole string. *)
Lemma endsWith_cons (c : ascii) (s suf : string) :
  endsWith (String c s) suf =
  if Nat.leb (String.length suf) (String.length s)
  then endsWith s suf
  else String c s =? suf.
Proof.
  unfold endsWith.
  cbn [String.length].
  destruct (Nat.leb (String.length suf) (String.length s)) eqn:Hfit.
  - apply Nat.leb_le in Hfit.
    replace (Nat.leb (String.length suf) (S (String.length s))) with true
      by (symmetry; apply Nat.leb_le; lia).
    replace (S (String.length s) - String.length suf)
      with (S (String.length s - String.length suf)) by lia.
    reflexivity.
  - apply Nat.leb_gt in Hfit.
    destruct (Nat.leb (String.length suf) (S (String.length s))) eqn:Hall.
    + apply Nat.leb_le in Hall.
      assert (Hlen : String.length suf = String.length (String c s))
        by (cbn [String.length]; lia).
      replace (S (String.length s) - String.length suf) with 0 by lia.
      rewrite Hlen, substring_all. reflexivity.
    + apply Nat.leb_gt in Hall.
      destruct (String c s =? suf) eqn:E; [|reflexivity].
      apply eqb_length in E. cbn [String.length] in E. lia.
Qed.

(** Two suffixes of one string: the shorter is a suffix of the longer. *)
Lemma endsWith_comparable (s a b : string) :
  endsWith s a = true -> endsWith s b = true ->
  String.length b <= String.length a ->
  endsWith a b = true.
Proof.
  induction s as [|c s IH]; intros Ha Hb Hlen.
  - apply endsWith_empty in Ha. apply endsWith_empty in Hb. now subst.
  - rewrite endsWith_cons in Ha.
    destruct (Nat.leb (String.length a) (String.length s)) eqn:Hfit.
    + apply Nat.leb_le in Hfit.
      rewrite endsWith_cons in Hb.
      replace (Nat.leb (String.length b) (String.length s)) with true in Hb
        by (symmetry; apply Nat.leb_le; lia).
      now apply IH.
    + apply String.eqb_eq in Ha. now subst.
Qed.

(** A name cannot end with two suffixes neither of which ends with the
    other. *)
Lemma endsWith_exclusive (s a b : string) :
  endsWith a b = false -> endsWith b a = false ->
  endsWith s a = true -> endsWith s b = false.
Proof.
  intros Hab Hba Ha.
  destruct (endsWith s b) eqn:Hb; [|reflexivity].
  destruct (Nat.le_ge_cases (String.length b) (String.length a)) as [Hl|Hl].
  - rewrite (endsWith_comparable s a b Ha Hb Hl) in Hab. discriminate.
  - rewrite (endsWith_comparable s b a Hb Ha Hl) in Hba. discriminate.
Qed.

(** A style sheet is never selected as a script. *)
Lemma css_is_no_script (sm : jsval) (f : string) :
  endsWith f ".css" = true ->
  endsWith f ".js" || (truthy sm && endsWith f ".js.map") = false.
Proof.
  intros H.
  rewrite (endsWith_exclusive f ".css" ".js"), (endsWith_exclusive f ".css" ".js.map");
    try reflexivity; try assumption.
  now rewrite andb_false_r.
Qed.

Lemma jsFiles_only_css (sm : jsval) (files : list string) :
  Forall (fun f => endsWith f ".css" = true) files ->
  jsFiles sm files = [].
Proof.
  unfold jsFiles.
  induction 1 as [|f files Hf _ IH]; [reflexivity|].
  cbn [filter]. rewrite (css_is_no_script sm f Hf). exact IH.
Qed.

(** ** [deslashUrl] *)

(** Induction over a string two characters at a time, as [deslash_from]
    consumes it. *)
Lemma string_pair_ind (P : string -> Prop) :
  P "" ->
  (forall c, P (String c "")) ->
  (forall c c' s, P s -> P (String c' s) -> P (String c (String c' s))) ->
  forall s, P s.
Proof.
  intros H0 H1 H2 s.
  assert (H : P s /\ forall c, P (String c s)).
  { induction s as [|c' s [IHs IHc]]; split; auto. }
  exact (proj1 H).
Qed.

Lemma deslash_from_pair (before : list ascii) (c c' : ascii) (r : string) :
  deslash_from before (String c (String c' r)) =
  if is_slash c && is_slash c' && negb (scheme_behind before)
  then String "/" (deslash_from (c' :: c :: before) r)
  else String c (deslash_from (c :: before) (String c' r)).
Proof. reflexivity. Qed.

(** The result starts with the character the text starts with. *)
Lemma deslash_from_head (before : list ascii) (c : ascii) (r : string) :
  exists o, deslash_from before (String c r) = String c o.
Proof.
  destruct r as [|c' r]; [exists ""; reflexivity|].
  cbn [deslash_from].
  destruct (is_slash c && is_slash c' && negb (scheme_behind before)) eqn:E.
  - apply andb_prop in E. destruct E as [E _]. apply andb_prop in E. destruct E as [E _].
    apply Ascii.eqb_eq in E. subst c. eexists. reflexivity.
  - eexists. reflexivity.
Qed.

Lemma has_triple_slash_tail (c : ascii) (s : string) :
  has_triple_slash (String c s) = false -> has_triple_slash s = false.
Proof.
  destruct s as [|c' [|c'' s]]; try reflexivity.
  cbn [has_triple_slash]. intros H. apply orb_false_elim in H. exact (proj2 H).
Qed.

(** Behind a pair of slashes, a text without a run of three slashes does not
    go on with a slash. *)
Lemma no_slash_behind_pair (c c' d : ascii) (r : string) :
  is_slash c = true -> is_slash c' = true ->
  has_triple_slash (String c (String c' (String d r))) = false ->
  is_slash d = false.
Proof.
  intros Hc Hc' H. cbn [has_triple_slash] in H. apply orb_false_elim in H.
  destruct H as [H _]. now rewrite Hc, Hc' in H.
Qed.

Lemma same_behind_push (c : ascii) (b b' : list ascii) :
  same_behind b b' -> same_behind (c :: b) (c :: b').
Proof.
  intros [Hhd _]. split; [reflexivity|].
  cbn [scheme_behind]. destruct b as [|x b], b' as [|x' b']; try discriminate; try reflexivity.
  cbn in Hhd. injection Hhd as ->. reflexivity.
Qed.

Lemma same_behind_slash (c : ascii) (b b' : list ascii) :
  same_behind ("/"%char :: c :: b) ("/"%char :: b').
Proof. split; reflexivity. Qed.

(** On a text without a run of three slashes a second pass changes nothing,
    whatever stands in front of it. *)
Lemma deslash_from_twice (s : string) :
  forall b b', same_behind b b' -> has_triple_slash s = false ->
  deslash_from b' (deslash_from b s) = deslash_from b s.
Proof.
  induction s as [| c | c c' r IHr IHt] using string_pair_ind; intros b b' Hsame Htri;
    try reflexivity.
  rewrite deslash_from_pair.
  destruct (is_slash c && is_slash c' && negb (scheme_behind b)) eqn:E.
  - apply andb_prop in E. destruct E as [E _]. apply andb_prop in E. destruct E as [Hc Hc'].
    destruct r as [|d r]; [reflexivity|].
    pose proof (no_slash_behind_pair c c' d r Hc Hc' Htri) as Hd.
    pose proof Hc' as Heq. apply Ascii.eqb_eq in Heq. subst c'.
    destruct (deslash_from_head ("/"%char :: c :: b) d r) as [o Ho].
    assert (IH := IHr ("/"%char :: c :: b) ("/"%char :: b') (same_behind_slash c b b')
                    (has_triple_slash_tail _ _ (has_triple_slash_tail _ _ Htri))).
    rewrite Ho in IH |- *.
    rewrite deslash_from_pair, Hd, andb_false_r. cbn [andb].
    now rewrite IH.
  - destruct (deslash_from_head (c :: b) c' r) as [o Ho].
    assert (IH := IHt (c :: b) (c :: b') (same_behind_push c b b' Hsame)
                    (has_triple_slash_tail _ _ Htri)).
    rewrite Ho in IH |- *.
    rewrite deslash_from_pair. destruct Hsame as [_ <-]. rewrite E.
    now rewrite IH.
Qed.

(** X5: where no run of three slashes occurs, [deslashUrl] is idempotent. *)
Lemma deslashUrl_idempotent_below_three (url : string) :
  has_triple_slash url = false ->
  deslashUrl (deslashUrl url) = deslashUrl url.
Proof.
  intros H. unfold deslashUrl. apply deslash_from_twice; [split; reflexivity | exact H].
Qed.

(** A text without colons and without a run of three slashes comes out free
    of double slashes, whatever colon-free text stands in front of it. *)
Lemma deslash_from_no_double (s : string) :
  forall b, existsb (Ascii.eqb ":") b = false ->
  has_colon s = false -> has_triple_slash s = false ->
  has_double_slash (deslash_from b s) = false.
Proof.
  induction s as [| c | c c' r IHr IHt] using string_pair_ind; intros b Hb Hcol Htri;
    try reflexivity.
  pose proof Hcol as Hcol0.
  cbn [has_colon] in Hcol0. apply orb_false_elim in Hcol0. destruct Hcol0 as [Hc Hcol'].
  apply orb_false_elim in Hcol'. destruct Hcol' as [Hc' Hr].
  assert (Hnb : scheme_behind b = false).
  { destruct b as [|x b]; [reflexivity|]. cbn [existsb] in Hb.
    apply orb_false_elim in Hb. destruct Hb as [Hx _].
    cbn [scheme_behind]. destruct (Ascii.eqb_spec ":" x) as [<-|Hne]; [discriminate|].
    destruct x as [[] [] [] [] [] [] [] []]; try reflexivity. now contradiction Hne. }
  rewrite deslash_from_pair, Hnb. cbn [negb]. rewrite andb_true_r.
  destruct (is_slash c && is_slash c') eqn:E.
  - apply andb_prop in E. destruct E as [Hsc Hsc'].
    assert (IH : has_double_slash (deslash_from (c' :: c :: b) r) = false).
    { apply IHr; [| exact Hr | exact (has_triple_slash_tail _ _ (has_triple_slash_tail _ _ Htri))].
      cbn [existsb]. rewrite (Ascii.eqb_sym ":" c'), Hc', (Ascii.eqb_sym ":" c), Hc. exact Hb. }
    destruct r as [|d r]; [reflexivity|].
    pose proof (no_slash_behind_pair c c' d r Hsc Hsc' Htri) as Hd.
    destruct (deslash_from_head (c' :: c :: b) d r) as [o Ho].
    rewrite Ho in IH |- *.
    change (has_double_slash (String "/" (String d o)))
      with (is_slash "/" && is_slash d || has_double_slash (String d o)).
    rewrite Hd, andb_false_r. exact IH.
  - assert (IH : has_double_slash (deslash_from (c :: b) (String c' r)) = false).
    { apply IHt; [| | exact (has_triple_slash_tail _ _ Htri)].
      - cbn [existsb]. rewrite (Ascii.eqb_sym ":" c), Hc. exact Hb.
      - cbn [has_colon]. now rewrite Hc', Hr. }
    destruct (deslash_from_head (c :: b) c' r) as [o Ho].
    rewrite Ho in IH |- *.
    change (has_double_slash (String c (String c' o)))
      with (is_slash c && is_slash c' || has_double_slash (String c' o)).
    rewrite E. exact IH.
Qed.

(** X6: where neither a colon nor a run of three slashes occurs, the result
    of [deslashUrl] holds no two adjacent slashes. *)
Lemma deslashUrl_no_double_below_three (url : string) :
  has_colon url = false -> has_triple_slash url = false ->
  has_double_slash (deslashUrl url) = false.
Proof.
  intros Hcol Htri. unfold deslashUrl. now apply deslash_from_no_double.
Qed.

(** A text without two adjacent slashes is returned as it is. *)
Lemma deslash_from_clean (s : string) :
  forall b, has_double_slash s = false -> deslash_from b s = s.
Proof.
  induction s as [| c | c c' r _ IHt] using string_pair_ind; intros b H;
    try reflexivity.
  change (has_double_slash (String c (String c' r)))
    with (is_slash c && is_slash c' || has_double_slash (String c' r)) in H.
  apply orb_false_elim in H. destruct H as [Hpair Hrest].
  rewrite deslash_from_pair, Hpair. cbn [andb]. now rewrite IHt.
Qed.

(** X1: a URL without two adjacent slashes is left unchanged. *)
Theorem deslashUrl_clean_url_unchanged (url : string) :
  has_double_slash url = false -> deslashUrl url = url.
Proof. intros H. unfold deslashUrl. now apply deslash_from_clean. Qed.

Lemma is_slash_eq (c : ascii) : is_slash c = true -> c = "/"%char.
Proof. unfold is_slash. apply Ascii.eqb_eq. Qed.

(** Only slashes are taken out, and none is put in. *)
Lemma deslash_from_keeps_others (s : string) :
  forall b,
    without_slashes (deslash_from b s) = without_slashes s /\
    String.length (deslash_from b s) <= String.length s.
Proof.
  induction s as [| c | c c' r IHr IHt] using string_pair_ind; intros b;
    try (split; [reflexivity | apply Nat.le_refl]).
  rewrite deslash_from_pair.
  destruct (is_slash c && is_slash c' && negb (scheme_behind b)) eqn:E.
  - apply andb_prop in E. destruct E as [E _]. apply andb_prop in E. destruct E as [Hc Hc'].
    destruct (IHr (c' :: c :: b)) as [IH1 IH2].
    cbn [without_slashes String.length]. rewrite Hc, Hc'.
    change (is_slash "/") with true. cbv iota. split; [exact IH1 | lia].
  - destruct (IHt (c :: b)) as [IH1 IH2].
    split.
    + change (without_slashes (String c (deslash_from (c :: b) (String c' r))))
        with (if is_slash c then without_slashes (deslash_from (c :: b) (String c' r))
              else String c (without_slashes (deslash_from (c :: b) (String c' r)))).
      rewrite IH1. reflexivity.
    + change (String.length (String c (deslash_from (c :: b) (String c' r))))
        with (S (String.length (deslash_from (c :: b) (String c' r)))).
      change (String.length (String c (String c' r)))
        with (S (String.length (String c' r))).
      lia.
Qed.

(** X2: [deslashUrl] changes a URL only by dropping slashes: the other
    characters stay, in their order, and the result is never longer. *)
Theorem deslashUrl_only_drops_slashes (url : string) :
  without_slashes (deslashUrl url) = without_slashes url /\
  String.length (deslashUrl url) <= String.length url.
Proof. apply deslash_from_keeps_others. Qed.

(** A name without slashes behind a text comes out as it went in. *)
Lemma deslash_from_append_name (t : string) :
  has_slash t = false ->
  forall s b, deslash_from b (s ++ t) = deslash_from b s ++ t.
Proof.
  intros Ht.
  assert (Hclean : forall b, deslash_from b t = t).
  { intros b. apply deslash_from_clean.
    clear b. induction t as [|c t IH]; [reflexivity|].
    cbn [has_slash] in Ht. apply orb_false_elim in Ht. destruct Ht as [Hc Ht].
    destruct t as [|c' t]; [reflexivity|].
    change (has_double_slash (String c (String c' t)))
      with (is_slash c && is_slash c' || has_double_slash (String c' t)).
    rewrite Hc. cbn [andb orb]. now apply IH. }
  induction s as [| c | c c' r IHr IHt] using string_pair_ind; intros b.
  - apply Hclean.
  - cbn [String.append]. destruct t as [|d t]; [reflexivity|].
    rewrite deslash_from_pair.
    cbn [has_slash] in Ht. apply orb_false_elim in Ht. destruct Ht as [Hd _].
    rewrite Hd, andb_false_r. cbn [andb]. now rewrite Hclean.
  - cbn [String.append]. rewrite !deslash_from_pair.
    destruct (is_slash c && is_slash c' && negb (scheme_behind b)).
    + cbn [String.append]. now rewrite IHr.
    + cbn [String.append]. f_equal. exact (IHt (c :: b)).
Qed.

(** X3: a file name without slashes can be appended before or behind the
    clean-up: [deslashUrl (url ++ name)] is [deslashUrl url ++ name]. *)
Theorem deslashUrl_append_name (url name : string) :
  has_slash name = false ->
  deslashUrl (url ++ name) = deslashUrl url ++ name.
Proof. intros H. unfold deslashUrl. now apply deslash_from_append_name. Qed.

Lemma lower_is_no_slash (c : ascii) : is_lower c = true -> is_slash c = false.
Proof.
  intros H. destruct (is_slash c) eqn:E; [|reflexivity].
  apply is_slash_eq in E. subst c. discriminate H.
Qed.

(** A stretch without double slashes that is followed by a character other
    than a slash is passed through unchanged. *)
Lemma deslash_from_prefix (p : string) :
  forall b c t,
    has_double_slash (p ++ String c "") = false -> is_slash c = false ->
    deslash_from b (p ++ String c t) =
    p ++ deslash_from (passed p ++ b)%list (String c t).
Proof.
  induction p as [|x p IH]; intros b c t Hp Hc; [reflexivity|].
  assert (Hstep : deslash_from b (String x (p ++ String c t)) =
                  String x (deslash_from (x :: b) (p ++ String c t)) /\
                  has_double_slash (p ++ String c "") = false).
  { destruct p as [|y p].
    - cbn [String.append]. rewrite deslash_from_pair, Hc, andb_false_r.
      split; reflexivity.
    - cbn [String.append] in Hp |- *.
      change (has_double_slash (String x (String y (p ++ String c ""))))
        with (is_slash x && is_slash y || has_double_slash (String y (p ++ String c ""))) in Hp.
      apply orb_false_elim in Hp. destruct Hp as [Hxy Hrest].
      rewrite deslash_from_pair, Hxy. split; [reflexivity | exact Hrest]. }
  destruct Hstep as [Hstep Hp'].
  cbn [String.append]. rewrite Hstep, (IH (x :: b) c t Hp' Hc).
  unfold passed. cbn [list_ascii_of_string rev]. now rewrite <- app_assoc.
Qed.

(** X4: the two slashes behind a scheme are kept.  When the text up to and
    including the last letter of the scheme holds no double slash and that
    letter is a lower-case one, the result starts with the same text, the
    colon and both slashes. *)
Theorem deslashUrl_keeps_scheme_separator (p : string) (c : ascii) (r : string) :
  has_double_slash (p ++ String c "") = false ->
  is_lower c = true ->
  exists o, deslashUrl (p ++ String c ("://" ++ r)) = p ++ String c ("://" ++ o).
Proof.
  intros Hp Hc. unfold deslashUrl.
  rewrite (deslash_from_prefix p [] c _ Hp (lower_is_no_slash c Hc)).
  cbn [String.append].
  rewrite deslash_from_pair, (lower_is_no_slash c Hc). cbn [andb].
  rewrite deslash_from_pair. change (is_slash ":") with false. cbn [andb].
  rewrite deslash_from_pair. cbn [scheme_behind]. rewrite Hc.
  rewrite andb_false_r.
  match goal with
  | |- context [deslash_from ?b (String "/" r)] =>
      destruct (deslash_from_head b "/" r) as [o Ho]
  end.
  rewrite Ho. exists o. reflexivity.
Qed.

Lemma string_app_assoc (a b c : string) : (a ++ b) ++ c = a ++ (b ++ c).
Proof. induction a as [|x a IH]; [reflexivity|]. cbn [String.append]. now rewrite IH. Qed.

(** The last character of a text is the last character of the result. *)
Lemma deslash_from_last (s : string) :
  forall b c, exists o, deslash_from b (s ++ String c "") = o ++ String c "".
Proof.
  induction s as [| x | x y r IHr IHt] using string_pair_ind; intros b c.
  - exists "". reflexivity.
  - cbn [String.append]. rewrite deslash_from_pair.
    destruct (is_slash x && is_slash c && negb (scheme_behind b)) eqn:E.
    + apply andb_prop in E. destruct E as [E _]. apply andb_prop in E.
      destruct E as [_ Hc]. apply is_slash_eq in Hc. subst c. exists "". reflexivity.
    + exists (String x ""). reflexivity.
  - cbn [String.append]. rewrite deslash_from_pair.
    destruct (is_slash x && is_slash y && negb (scheme_behind b)).
    + destruct (IHr (y :: x :: b) c) as [o Ho]. rewrite Ho.
      exists (String "/" o). reflexivity.
    + destruct (IHt (x :: b) c) as [o Ho]. cbn [String.append] in Ho. rewrite Ho.
      exists (String x o). reflexivity.
Qed.




(** C3 (refuted on the code): [deslashUrl] is not idempotent.  A run of three
    slashes is matched once, at its first two characters, and the third slash
    is left next to the replacement: ["///"] becomes ["//"], and a second pass
    turns that into ["/"].  The same happens inside the URL that [publish]
    builds from a base ending in a slash and a path starting with one. *)
Theorem deslashUrl_triple_slash_not_idempotent :
  deslashUrl "///" = "//" /\
  deslashUrl (deslashUrl "///") = "/" /\
  deslashUrl (deslashUrl "///") <> deslashUrl "///" /\
  deslashUrl "https://cdn.example.com///app/1.0/" = "https://cdn.example.com//app/1.0/" /\
  deslashUrl (deslashUrl "https://cdn.example.com///app/1.0/")
    = "https://cdn.example.com/app/1.0/".
Proof.
  repeat split; try reflexivity.
  vm_compute. discriminate.
Qed.

(** C4 (refuted on the code): a string without any colon, hence without a
    scheme, whose result still holds two adjacent slashes: ["/static///app/1.0/"]
    becomes ["/static//app/1.0/"], and ["///"] becomes ["//"]. *)
Theorem deslashUrl_leaves_double_slash :
  has_colon "/static///app/1.0/" = false /\
  deslashUrl "/static///app/1.0/" = "/static//app/1.0/" /\
  has_double_slash (deslashUrl "/static///app/1.0/") = true /\
  has_colon "///" = false /\
  has_double_slash (deslashUrl "///") = true.
Proof.
  repeat split; reflexivity.
Qed.

(** The example of the documentation: the pair behind the scheme is kept, the
    later pairs are collapsed. *)
Lemma deslashUrl_https_example :
  deslashUrl "https://a//b//c" = "https://a/b/c".
Proof. reflexivity. Qed.

(** ** File selection *)

(** C6: on the listing [app.js], [app.js.map], [style.css],
    [service-worker.js], [readme.txt] the scripts are [app.js] without source
    maps and [app.js], [app.js.map] with them; the style sheets are
    [style.css] in both cases.  The flag counts by its truth value. *)
Theorem classify_example (sm : jsval) :
  jsFiles sm listing = (if truthy sm then ["app.js"; "app.js.map"] else ["app.js"]) /\
  cssFiles sm listing = ["style.css"] /\
  jsFiles (JBool false) listing = ["app.js"] /\
  cssFiles (JBool false) listing = ["style.css"] /\
  jsFiles (JBool true) listing = ["app.js"; "app.js.map"] /\
  cssFiles (JBool true) listing = ["style.css"].
Proof.
  unfold jsFiles, cssFiles, listing.
  repeat split; try reflexivity; cbn; destruct (truthy sm); reflexivity.
Qed.

(** C7: whatever the listing and the source-map flag, [service-worker.js] is
    neither among the scripts nor among the style sheets. *)
Theorem service_worker_never_selected (sm : jsval) (files : list string) :
  ~ In "service-worker.js" (jsFiles sm files) /\
  ~ In "service-worker.js" (cssFiles sm files).
Proof.
  split; intros H.
  - unfold jsFiles in H. apply filter_In in H. destruct H as [_ H].
    discriminate H.
  - unfold cssFiles in H. apply filter_In in H. destruct H as [_ H].
    cbn in H. destruct (truthy sm); discriminate H.
Qed.

Lemma selected_script (sm : jsval) (files : list string) (f : string) :
  In f (jsFiles sm files) ->
  endsWith f ".js" = true \/ (truthy sm = true /\ endsWith f ".js.map" = true).
Proof.
  unfold jsFiles. intros H. apply filter_In in H. destruct H as [H _].
  apply filter_In in H. destruct H as [_ H].
  apply orb_prop in H. destruct H as [H|H]; [left; exact H|].
  apply andb_prop in H. right. exact H.
Qed.

Lemma selected_stylesheet (sm : jsval) (files : list string) (f : string) :
  In f (cssFiles sm files) ->
  endsWith f ".css" = true \/ (truthy sm = true /\ endsWith f ".css.map" = true).
Proof.
  unfold cssFiles. intros H. apply filter_In in H. destruct H as [_ H].
  apply orb_prop in H. destruct H as [H|H]; [left; exact H|].
  apply andb_prop in H. right. exact H.
Qed.

(** Two endings neither of which ends with the other cannot both be the
    ending of one name. *)
Ltac clash Ha Hb :=
  match type of Ha with
  | endsWith ?f ?a = true =>
      match type of Hb with
      | endsWith f ?b = true =>
          rewrite (endsWith_exclusive f a b eq_refl eq_refl Ha) in Hb; discriminate Hb
      end
  end.

(** X7: no file is selected both as a script and as a style sheet, with or
    without source maps. *)
Theorem scripts_and_stylesheets_disjoint (sm : jsval) (files : list string)
    (f : string) :
  In f (jsFiles sm files) -> ~ In f (cssFiles sm files).
Proof.
  intros Hjs Hcss.
  apply selected_script in Hjs. apply selected_stylesheet in Hcss.
  destruct Hjs as [Hj | [_ Hj]], Hcss as [Hc | [_ Hc]]; clash Hj Hc.
Qed.

(** X8: unless the source-map flag is set, no file ending in [.map] is
    selected, neither as a script nor as a style sheet. *)
Theorem no_map_file_without_flag (sm : jsval) (files : list string) (f : string) :
  truthy sm = false ->
  In f (jsFiles sm files ++ cssFiles sm files)%list ->
  endsWith f ".map" = false.
Proof.
  intros Hsm Hin. apply in_app_or in Hin.
  destruct Hin as [Hin | Hin];
    [apply selected_script in Hin | apply selected_stylesheet in Hin];
    (destruct Hin as [H | [Ht _]]; [|rewrite Hsm in Ht; discriminate Ht]).
  - now apply (endsWith_exclusive f ".js" ".map").
  - now apply (endsWith_exclusive f ".css" ".map").
Qed.

(** ** [stripTrailingSlash] *)

(** X9: a slash at the very end is removed, and only that one:
    [stripTrailingSlash (s ++ "/")] is [s], whatever [s] ends with. *)
Theorem stripTrailingSlash_drops_one_slash (s : string) :
  stripTrailingSlash (s ++ "/") = s.
Proof.
  induction s as [|c s IH]; [reflexivity|].
  cbn [String.append].
  change (stripTrailingSlash (String c (s ++ "/")))
    with (match s ++ "/" with
          | EmptyString => if is_slash c then EmptyString else String c (s ++ "/")
          | String _ _ => String c (stripTrailingSlash (s ++ "/"))
          end).
  rewrite IH. destruct s; reflexivity.
Qed.

(** X10: a path that does not end in a slash is used as it is. *)
Theorem stripTrailingSlash_without_slash (s : string) :
  endsWith s "/" = false -> stripTrailingSlash s = s.
Proof.
  induction s as [|c s IH]; [reflexivity|].
  rewrite endsWith_cons.
  destruct s as [|d s].
  - cbn [String.length Nat.leb]. intros H. cbn [stripTrailingSlash].
    destruct (is_slash c) eqn:E; [|reflexivity].
    apply is_slash_eq in E. subst c. discriminate H.
  - cbn [String.length Nat.leb]. intros H.
    change (stripTrailingSlash (String c (String d s)))
      with (String c (stripTrailingSlash (String d s))).
    now rewrite (IH H).
Qed.

(** ** The existence check *)

Lemma length_filter_pos {A} (f : A -> bool) (l : list A) :
  Nat.ltb 0 (List.length (filter f l)) = existsb f l.
Proof.
  induction l as [|x l IH]; [reflexivity|].
  cbn [filter existsb]. destruct (f x); [reflexivity | exact IH].
Qed.

(** [pathExists] sends one list request and answers whether some stored key
    begins with the path. *)
Lemma pathExists_eq (w : World) (bucket path : string) :
  pathExists w bucket path =
  ([ListObjects bucket path],
   match bucket_keys w bucket with
   | Some keys => Ok (existsb (fun k => startsWith k path) keys)
   | None => Throw (ErrorObj "listObjects failed")
   end).
Proof.
  unfold pathExists, listObjects.
  destruct (bucket_keys w bucket) as [keys|]; [|reflexivity].
  unfold bind, emit, ret; cbn [app].
  now rewrite length_filter_pos.
Qed.

Lemma resolve_version_eq (w : World) (p : Program) :
  resolve_version w p = ([], snd (resolve_version w p)).
Proof.
  unfold resolve_version.
  destruct (truthy (appVersion p)); [reflexivity|].
  destruct (package_version w); reflexivity.
Qed.

(** The required options are looked at before anything else happens: the
    check prints at most one line and issues no other event. *)
Lemma check_required_cases (p : Program) :
  check_required p required = ([], Ok tt) \/
  exists opt, In opt required /\ program_get p opt = JUndefined /\
    check_required p required = ([Log ("Missing required argument " ++ opt)], Exit 1%Z).
Proof.
  unfold required.
  destruct (s3Bucket p) eqn:Hb;
    [right; exists "s3Bucket"; cbn; rewrite Hb; cbn; auto | |];
    (destruct (s3Path p) eqn:Hp;
     [right; exists "s3Path"; cbn; rewrite Hb, Hp; cbn; auto | |];
     (destruct (localPath p) eqn:Hl;
      [right; exists "localPath"; cbn; rewrite Hb, Hp, Hl; cbn; auto | |];
      left; cbn; rewrite Hb, Hp, Hl; reflexivity)).
Qed.

Lemma bind_ret_l {A B} (a : A) (k : A -> M B) : bind ([], Ok a) k = k a.
Proof. unfold bind. destruct (k a); reflexivity. Qed.

Lemma bind_ret {A B} (a : A) (k : A -> M B) : bind (ret a) k = k a.
Proof. apply bind_ret_l. Qed.

Lemma bind_emit {B} (e : Event) (k : unit -> M B) :
  bind (emit e) k = (e :: fst (k tt), snd (k tt)).
Proof. unfold bind, emit. destruct (k tt); reflexivity. Qed.

Lemma bind_exit {A B} (t : list Event) (c : Z) (k : A -> M B) :
  bind (t, Exit c) k = (t, Exit c).
Proof. reflexivity. Qed.

Lemma bind_throw {A B} (t : list Event) (e : JsError) (k : A -> M B) :
  bind (t, Throw e) k = (t, Throw e).
Proof. reflexivity. Qed.

Lemma bind_ok {A B} (t : list Event) (a : A) (k : A -> M B) :
  bind (t, Ok a) k = ((t ++ fst (k a))%list, snd (k a)).
Proof. unfold bind. destruct (k a); reflexivity. Qed.

(** ** The abort on an existing version *)

(** What [publish] does once the version is known, the path is found in the
    bucket and [force] is not set: four events, then [process.exit(1)]. *)
Lemma publish_abort (w : World) (p : Program) (v : jsval) :
  snd (resolve_version w p) = Ok v ->
  snd (pathExists w (toStr (s3Bucket p)) (versionS3Path p v)) = Ok true ->
  truthy (force p) = false ->
  publish w p =
  ([Log ("Preparing to deploy version " ++ toStr v ++ " from "
         ++ toStr (localPath p) ++ " to " ++ "s3://" ++ toStr (s3Bucket p)
         ++ "/" ++ toStr (s3Path p));
    ListObjects (toStr (s3Bucket p)) (versionS3Path p v);
    Log ("Version " ++ toStr v ++ " already exists in S3.");
    Log "If you wish to overwrite it please specify the --force option and run the script again."],
   Exit 1%Z).
Proof.
  intros Hv Hex Hforce.
  unfold publish.
  rewrite resolve_version_eq, Hv, bind_ret_l.
  unfold log at 1. rewrite bind_emit.
  rewrite pathExists_eq in Hex |- *.
  destruct (bucket_keys w (toStr (s3Bucket p))) as [keys|]; [|discriminate].
  cbn [snd] in Hex. injection Hex as Hex. rewrite Hex.
  rewrite Hforce.
  reflexivity.
Qed.

(** C1: when the existence check answers that the version path exists and
    [force] is not set, the run spawns no build, starts no upload and sends no
    put request, and the process ends through [process.exit(1)]. *)
Theorem abort_when_version_exists (w : World) (p : Program) (v : jsval) :
  snd (resolve_version w p) = Ok v ->
  snd (pathExists w (toStr (s3Bucket p)) (versionS3Path p v)) = Ok true ->
  truthy (force p) = false ->
  none_of is_spawn (fst (run w p)) /\
  none_of is_upload (fst (run w p)) /\
  snd (run w p) = Exited 1%Z /\
  exit_status (snd (run w p)) <> 0%Z.
Proof.
  intros Hv Hex Hforce.
  unfold run, main.
  destruct (check_required_cases p) as [Hreq | (opt & _ & _ & Hreq)]; rewrite Hreq.
  - rewrite bind_ret_l, (publish_abort w p v Hv Hex Hforce).
    cbn. repeat split; try reflexivity. discriminate.
  - rewrite bind_exit. cbn. repeat split; try reflexivity. discriminate.
Qed.

(** ** The stages in front of the uploads *)

(** [publish] either stops in front of line 101, by [process.exit(1)] or by a
    rejection, or it gets through the build and continues with
    [publish_built] on the version path.  Up to there it only prints, lists
    the bucket and spawns the build. *)
Lemma publish_cases (w : World) (p : Program) :
  (exists t r, publish w p = (t, r) /\ forallb is_early t = true /\
               (r = Exit 1%Z \/ exists e, r = Throw e)) \/
  (exists v t, snd (resolve_version w p) = Ok v /\ forallb is_early t = true /\
               publish w p =
               ((t ++ fst (publish_built w p (versionS3Path p v)))%list,
                snd (publish_built w p (versionS3Path p v)))).
Proof.
  unfold publish.
  rewrite resolve_version_eq.
  assert (Hres : (exists v, snd (resolve_version w p) = Ok v) \/
                 (exists e, snd (resolve_version w p) = Throw e)).
  { unfold resolve_version. destruct (truthy (appVersion p)); [left; eexists; reflexivity|].
    destruct (package_version w); [left | right]; eexists; reflexivity. }
  destruct Hres as [[v Hv] | [e He]].
  2:{ left. rewrite He, bind_throw. exists [], (Throw e). repeat split; eauto. }
  rewrite Hv, bind_ret_l.
  unfold log at 1. rewrite bind_emit.
  rewrite pathExists_eq.
  destruct (bucket_keys w (toStr (s3Bucket p))) as [keys|].
  2:{ left. rewrite bind_throw. cbn [fst snd]. do 2 eexists.
      split; [reflexivity|]. split; [reflexivity | right; eauto]. }
  rewrite bind_ok. cbn [app].
  set (vpath := versionS3Path p v).
  set (url := deslashUrl (toStr (publicUrlBase p) ++ "/" ++ vpath ++ "/")).
  assert (Hbuild :
    (exists t e, forallb is_early t = true /\ build w url = (t, Throw e)) \/
    build w url = ([Spawn url], Ok tt)).
  { unfold build. rewrite bind_emit.
    destruct (build_outcome w url) as [code| |msg].
    - destruct (code =? 0)%Z; [right; reflexivity|].
      left. do 2 eexists. split; [|reflexivity]. reflexivity.
    - left. do 2 eexists. split; [|reflexivity]. reflexivity.
    - left. do 2 eexists. split; [|reflexivity]. reflexivity. }
  destruct (existsb (fun k => startsWith k vpath) keys).
  - destruct (truthy (force p)).
    + destruct Hbuild as [(t & e & Ht & Hb) | Hb]; rewrite Hb.
      * left. cbn -[forallb deslashUrl String.append]. do 2 eexists.
        split; [reflexivity|]. split; [|right; eauto].
        cbn [forallb is_early andb]. exact Ht.
      * right. exists v. eexists [Log _; ListObjects _ _; Log _; Log _; Log _; Spawn _].
        split; [reflexivity|]. split; [reflexivity|].
        subst vpath. destruct (publish_built w p (versionS3Path p v)) as [tb rb].
        reflexivity.
    + left. cbn -[String.append]. do 2 eexists.
      split; [reflexivity|]. split; [reflexivity | left; reflexivity].
  - destruct Hbuild as [(t & e & Ht & Hb) | Hb]; rewrite Hb.
    + left. cbn -[forallb deslashUrl String.append]. do 2 eexists.
      split; [reflexivity|]. split; [|right; eauto].
      cbn [forallb is_early andb]. exact Ht.
    + right. exists v. eexists [Log _; ListObjects _ _; Log _; Spawn _].
      split; [reflexivity|]. split; [reflexivity|].
      subst vpath. destruct (publish_built w p (versionS3Path p v)) as [tb rb].
      reflexivity.
Qed.

(** ** The stages behind the build *)

(** [publish_built] on a directory that can be read. *)
Lemma publish_built_listing (w : World) (p : Program) (vpath lp : string)
    (files : list string) :
  localPath p = JString lp ->
  readdirSync w (stripTrailingSlash lp) = Some files ->
  publish_built w p vpath =
  if Nat.eqb (List.length (jsFiles (sourceMaps p) files)) 0
  then ([ReadDir (stripTrailingSlash lp); Log "No main js file found"], Exit 1%Z)
  else
    let u := promise_all
               (uploads w (toStr (s3Bucket p)) vpath (stripTrailingSlash lp)
                  (jsFiles (sourceMaps p) files) (cssFiles (sourceMaps p) files)) in
    match snd u with
    | Ok _ => ((ReadDir (stripTrailingSlash lp) :: fst u ++ done_lines p vpath)%list, Ok tt)
    | Exit c => (ReadDir (stripTrailingSlash lp) :: fst u, Exit c)
    | Throw e => (ReadDir (stripTrailingSlash lp) :: fst u, Throw e)
    end.
Proof.
  intros Hlp Hdir.
  unfold publish_built. rewrite Hlp. cbv iota. rewrite bind_ret.
  unfold readdir. rewrite Hdir.
  cbn [emit bind ret app try_catch fst snd].
  destruct (Nat.eqb (List.length (jsFiles (sourceMaps p) files)) 0); [reflexivity|].
  cbn [ret bind app].
  destruct (promise_all _) as [tu [[]|c|e]]; reflexivity.
Qed.

(** A run of [publish_built] that is fulfilled ends with the three final
    lines. *)
Lemma publish_built_ok (w : World) (p : Program) (vpath : string) :
  snd (publish_built w p vpath) = Ok tt ->
  exists t, fst (publish_built w p vpath) = (t ++ done_lines p vpath)%list.
Proof.
  destruct (localPath p) as [|b|lp] eqn:Hlp;
    try (unfold publish_built; rewrite Hlp; discriminate).
  destruct (readdirSync w (stripTrailingSlash lp)) as [files|] eqn:Hdir.
  - rewrite (publish_built_listing w p vpath lp files Hlp Hdir).
    destruct (Nat.eqb _ 0); [discriminate|].
    cbv zeta. destruct (snd (promise_all _)); try discriminate.
    intros _. eexists (_ :: _). reflexivity.
  - unfold publish_built, readdir. rewrite Hlp. cbv iota. rewrite bind_ret, Hdir.
    discriminate.
Qed.

(** ** The uploads *)

Lemma uploadFileToS3_events (w : World) (bucket key file type : string) :
  fst (uploadFileToS3 w bucket key file type) =
  Uploading bucket key file type :: ReadFile file ::
  match readFileSync w file with
  | Some body => [PutObject bucket key body "public-read" type]
  | None => []
  end.
Proof.
  unfold uploadFileToS3.
  destruct (readFileSync w file) as [body|]; [|reflexivity].
  destruct (putObject_ok w bucket key); reflexivity.
Qed.

(** An upload succeeds exactly when the file can be read and the put request
    is served. *)
Lemma uploadFileToS3_ok (w : World) (bucket key file type : string) :
  snd (uploadFileToS3 w bucket key file type) = Ok tt <->
  (exists body, readFileSync w file = Some body) /\ putObject_ok w bucket key = true.
Proof.
  unfold uploadFileToS3.
  destruct (readFileSync w file) as [body|].
  - destruct (putObject_ok w bucket key); cbn; split; intros H.
    + split; [eauto | reflexivity].
    + reflexivity.
    + discriminate.
    + destruct H as [_ H]; discriminate.
  - cbn. split; [discriminate | intros [[body H] _]; discriminate].
Qed.

Lemma promise_all_cons (m : M unit) (rest : list (M unit)) :
  fst (promise_all (m :: rest)) = (fst m ++ fst (promise_all rest))%list.
Proof.
  cbn [promise_all]. destruct m as [t r]. destruct (promise_all rest). reflexivity.
Qed.

Lemma promise_all_app (l1 l2 : list (M unit)) :
  fst (promise_all (l1 ++ l2)) = (fst (promise_all l1) ++ fst (promise_all l2))%list.
Proof.
  induction l1 as [|m l1 IH]; [reflexivity|].
  rewrite <- app_comm_cons, !promise_all_cons, IH. now rewrite app_assoc.
Qed.

(** The join is fulfilled exactly when every promise of the array is. *)
Lemma promise_all_ok (l : list (M unit)) :
  snd (promise_all l) = Ok tt <-> Forall (fun m => snd m = Ok tt) l.
Proof.
  induction l as [|[t r] l IH]; [split; [constructor | reflexivity]|].
  cbn [promise_all]. destruct (promise_all l) as [t' r'] eqn:E. cbn [snd] in *.
  split.
  - intros H. destruct r as [[]|c|e]; try discriminate.
    constructor; [reflexivity | now apply IH].
  - intros H. inversion H as [|? ? Hr Hl]; subst. cbn in Hr. subst r. now apply IH.
Qed.

Section Uploads.

Variable w : World.
Variables bucket vpath lpath : string.

Lemma class_calls (type : string) (names : list string) :
  filter is_upload_call
    (fst (promise_all
            (map (fun filename =>
                    uploadFileToS3 w bucket (vpath ++ "/" ++ filename)
                      (lpath ++ "/" ++ filename) type) names)))
  = upload_calls bucket vpath lpath type names.
Proof.
  induction names as [|f names IH]; [reflexivity|].
  cbn [map upload_calls].
  rewrite promise_all_cons, filter_app, IH, uploadFileToS3_events.
  destruct (readFileSync w _); reflexivity.
Qed.

Lemma class_puts (type : string) (names : list string) :
  filter is_put
    (fst (promise_all
            (map (fun filename =>
                    uploadFileToS3 w bucket (vpath ++ "/" ++ filename)
                      (lpath ++ "/" ++ filename) type) names)))
  = put_requests w bucket vpath lpath type names.
Proof.
  induction names as [|f names IH]; [reflexivity|].
  cbn [map put_requests flat_map].
  rewrite promise_all_cons, filter_app, IH, uploadFileToS3_events.
  destruct (readFileSync w _); reflexivity.
Qed.

Variables js css : list string.

Lemma uploads_calls :
  filter is_upload_call (fst (promise_all (uploads w bucket vpath lpath js css))) =
  (upload_calls bucket vpath lpath "application/javascript" js
   ++ upload_calls bucket vpath lpath "text/css" css)%list.
Proof.
  unfold uploads, uploadJsFileToS3, uploadCssFileToS3.
  now rewrite promise_all_app, filter_app, !class_calls.
Qed.

Lemma uploads_puts :
  filter is_put (fst (promise_all (uploads w bucket vpath lpath js css))) =
  (put_requests w bucket vpath lpath "application/javascript" js
   ++ put_requests w bucket vpath lpath "text/css" css)%list.
Proof.
  unfold uploads, uploadJsFileToS3, uploadCssFileToS3.
  now rewrite promise_all_app, filter_app, !class_puts.
Qed.

Lemma uploads_ok :
  snd (promise_all (uploads w bucket vpath lpath js css)) = Ok tt <->
  Forall (upload_succeeds w bucket vpath lpath) (js ++ css).
Proof.
  rewrite promise_all_ok. unfold uploads.
  rewrite !Forall_app, !Forall_map.
  unfold uploadJsFileToS3, uploadCssFileToS3, upload_succeeds.
  split; intros [Hj Hc]; split;
    (eapply Forall_impl; [|eassumption]); intros f Hf; cbv beta in *;
    (apply uploadFileToS3_ok in Hf || apply uploadFileToS3_ok); exact Hf.
Qed.

Lemma put_requests_all (type : string) (names : list string) :
  Forall (upload_succeeds w bucket vpath lpath) names ->
  List.length (put_requests w bucket vpath lpath type names) = List.length names.
Proof.
  induction 1 as [|f names [[body Hf] _] _ IH]; [reflexivity|].
  cbn [put_requests flat_map]. rewrite Hf. cbn. f_equal. exact IH.
Qed.

End Uploads.

(** ** Whole runs *)

Lemma early_no_upload (t : list Event) :
  forallb is_early t = true ->
  existsb is_upload t = false /\ existsb is_put t = false /\
  filter is_upload_call t = [] /\ filter is_put t = [] /\
  forall path, ~ In (ReadDir path) t.
Proof.
  induction t as [|e t IH]; intros H.
  - repeat split; auto.
  - cbn [forallb] in H. apply andb_prop in H. destruct H as [He Ht].
    destruct (IH Ht) as (H1 & H2 & H3 & H4 & H5).
    destruct e; try discriminate He; cbn;
      (repeat split; auto; intros path [Hd|Hd]; [discriminate | now apply (H5 path)]).
Qed.

Lemma last_app_cons {A} (t : list A) (a : A) (l : list A) (d : A) :
  last (t ++ a :: l)%list d = last (a :: l) d.
Proof.
  induction t as [|x t IH]; [reflexivity|].
  rewrite <- app_comm_cons. cbn [last]. destruct (t ++ a :: l)%list eqn:E; [|exact IH].
  now destruct t.
Qed.

Lemma early_app (t1 t2 : list Event) :
  forallb is_early t1 = true -> forallb is_early t2 = true ->
  forallb is_early (t1 ++ t2)%list = true.
Proof. intros H1 H2. now rewrite forallb_app, H1, H2. Qed.

Lemma early_unhandledRejection (e : JsError) :
  forallb is_early (unhandledRejection e) = true.
Proof. destruct e; reflexivity. Qed.

(** A run either ends in front of line 101, with a non-zero status and
    nothing but early events, or it is the early events followed by what
    [publish_built] does. *)
Lemma run_cases (w : World) (p : Program) :
  (exists t o, run w p = (t, o) /\ forallb is_early t = true /\ exit_status o <> 0%Z) \/
  (exists v t, snd (resolve_version w p) = Ok v /\ forallb is_early t = true /\
     run w p =
     match snd (publish_built w p (versionS3Path p v)) with
     | Ok _ => ((t ++ fst (publish_built w p (versionS3Path p v)))%list, Completed)
     | Exit c => ((t ++ fst (publish_built w p (versionS3Path p v)))%list, Exited c)
     | Throw e =>
         (((t ++ fst (publish_built w p (versionS3Path p v))) ++ unhandledRejection e)%list,
          Crashed e)
     end).
Proof.
  unfold run, main.
  destruct (check_required_cases p) as [Hreq | (opt & _ & _ & Hreq)]; rewrite Hreq.
  2:{ left. rewrite bind_exit. do 2 eexists. split; [reflexivity|].
      split; [reflexivity | discriminate]. }
  rewrite bind_ret_l.
  destruct (publish_cases w p) as [(t & r & Hp & Ht & Hr) | (v & t & Hv & Ht & Hp)];
    rewrite Hp.
  - left. destruct Hr as [-> | [e ->]].
    + do 2 eexists. split; [reflexivity|]. split; [exact Ht | discriminate].
    + do 2 eexists. split; [reflexivity|].
      split; [|discriminate]. apply early_app; [exact Ht | apply early_unhandledRejection].
  - right. exists v, t. split; [exact Hv|]. split; [exact Ht|].
    destruct (snd (publish_built w p (versionS3Path p v))) as [[]|c|e]; reflexivity.
Qed.

(** C8: when the local directory holds nothing but [.css] files, the run ends
    with a non-zero status and has neither started an upload nor sent a put
    request; if it got as far as reading the directory it ends by
    [process.exit(1)] right behind the line ['No main js file found']. *)
Theorem only_css_files_fail_before_upload (w : World) (p : Program) (lp : string)
    (files : list string) :
  localPath p = JString lp ->
  readdirSync w (stripTrailingSlash lp) = Some files ->
  Forall (fun f => endsWith f ".css" = true) files ->
  none_of is_upload (fst (run w p)) /\
  none_of is_put (fst (run w p)) /\
  exit_status (snd (run w p)) <> 0%Z /\
  (In (ReadDir (stripTrailingSlash lp)) (fst (run w p)) ->
   snd (run w p) = Exited 1%Z /\
   last (fst (run w p)) (Log "") = Log "No main js file found").
Proof.
  intros Hlp Hdir Hcss. unfold none_of.
  destruct (run_cases w p) as [(t & o & Hrun & Ht & Ho) | (v & t & Hv & Ht & Hrun)];
    rewrite Hrun; cbn [fst snd].
  - destruct (early_no_upload t Ht) as (H1 & H2 & _ & _ & H5).
    split; [exact H1|]. split; [exact H2|]. split; [exact Ho|].
    intros Hin. now apply H5 in Hin.
  - rewrite (publish_built_listing w p _ lp files Hlp Hdir) in *.
    rewrite (jsFiles_only_css _ _ Hcss) in *. cbn [List.length Nat.eqb fst snd].
    destruct (early_no_upload t Ht) as (H1 & H2 & _).
    rewrite !existsb_app, H1, H2, last_app_cons.
    repeat split; try reflexivity. discriminate.
Qed.


(** C2: in a run that reaches the upload stage (the directory has been read
    and holds at least one script), one upload is started for each selected
    file, the scripts first, each script with content type
    [application/javascript] and each style sheet with [text/css]; the put
    requests carry the same types; and the run completes exactly when every
    one of these uploads succeeds, in which case as many put requests were
    sent as files were selected. *)
Theorem upload_fan_out (w : World) (p : Program) (v : jsval) (lp : string)
    (files : list string) :
  let bucket := toStr (s3Bucket p) in
  let vpath := versionS3Path p v in
  let lpath := stripTrailingSlash lp in
  let js := jsFiles (sourceMaps p) files in
  let css := cssFiles (sourceMaps p) files in
  snd (resolve_version w p) = Ok v ->
  localPath p = JString lp ->
  readdirSync w lpath = Some files ->
  js <> [] ->
  In (ReadDir lpath) (fst (run w p)) ->
  filter is_upload_call (fst (run w p)) =
    (upload_calls bucket vpath lpath "application/javascript" js
     ++ upload_calls bucket vpath lpath "text/css" css)%list /\
  List.length (filter is_upload_call (fst (run w p))) =
    List.length js + List.length css /\
  filter is_put (fst (run w p)) =
    (put_requests w bucket vpath lpath "application/javascript" js
     ++ put_requests w bucket vpath lpath "text/css" css)%list /\
  (snd (run w p) = Completed <->
   Forall (upload_succeeds w bucket vpath lpath) (js ++ css)) /\
  (snd (run w p) = Completed ->
   List.length (filter is_put (fst (run w p))) = List.length js + List.length css).
Proof.
  intros bucket vpath lpath js css Hv Hlp Hdir Hjs Hreach.
  destruct (run_cases w p) as [(t & o & Hrun & Ht & Ho) | (v' & t & Hv' & Ht & Hrun)].
  { rewrite Hrun in Hreach. cbn [fst] in Hreach.
    destruct (early_no_upload t Ht) as (_ & _ & _ & _ & H5). now apply H5 in Hreach. }
  rewrite Hv in Hv'. injection Hv' as <-.
  clear Hreach.
  rewrite (publish_built_listing w p _ lp files Hlp Hdir) in Hrun.
  fold js css lpath vpath bucket in Hrun.
  destruct (Nat.eqb (List.length js) 0) eqn:Hlen.
  { apply Nat.eqb_eq in Hlen. destruct js; [now contradiction Hjs | discriminate]. }
  cbv zeta in Hrun.
  pose proof (uploads_calls w bucket vpath lpath js css) as Hcalls.
  pose proof (uploads_puts w bucket vpath lpath js css) as Hputs.
  pose proof (uploads_ok w bucket vpath lpath js css) as Hok.
  destruct (early_no_upload t Ht) as (_ & _ & Hc0 & Hp0 & _).
  assert (Hc : filter is_upload_call (fst (run w p)) =
               (upload_calls bucket vpath lpath "application/javascript" js
                ++ upload_calls bucket vpath lpath "text/css" css)%list).
  { rewrite Hrun.
    destruct (snd (promise_all _)) as [[]|c|e]; cbn [fst snd];
      rewrite ?filter_app, Hc0; cbn [filter is_upload_call app];
      rewrite ?filter_app, Hcalls.
    - cbn. now rewrite app_nil_r.
    - reflexivity.
    - destruct e; cbn; now rewrite app_nil_r. }
  assert (Hp : filter is_put (fst (run w p)) =
               (put_requests w bucket vpath lpath "application/javascript" js
                ++ put_requests w bucket vpath lpath "text/css" css)%list).
  { rewrite Hrun.
    destruct (snd (promise_all _)) as [[]|c|e]; cbn [fst snd];
      rewrite ?filter_app, Hp0; cbn [filter is_put app];
      rewrite ?filter_app, Hputs.
    - cbn. now rewrite app_nil_r.
    - reflexivity.
    - destruct e; cbn; now rewrite app_nil_r. }
  assert (Hdone : snd (run w p) = Completed <->
                  Forall (upload_succeeds w bucket vpath lpath) (js ++ css)).
  { rewrite <- Hok, Hrun.
    destruct (snd (promise_all _)) as [[]|c|e]; cbn [fst snd];
      split; intros H; try reflexivity; discriminate H. }
  split; [exact Hc|]. split.
  { rewrite Hc, length_app. unfold upload_calls. now rewrite !length_map. }
  split; [exact Hp|]. split; [exact Hdone|].
  intros Hcompleted. apply Hdone in Hcompleted. apply Forall_app in Hcompleted.
  destruct Hcompleted as [Hj Hs].
  rewrite Hp, length_app.
  now rewrite (put_requests_all _ _ _ _ _ _ Hj), (put_requests_all _ _ _ _ _ _ Hs).
Qed.

(** C9: the existence check is a test on key prefixes.  Whenever some stored
    key begins with [s3Path + '/' + version] and [force] is not set, the run
    reports that the version already exists and ends by [process.exit(1)]
    behind the list request; whether the key belongs to this version or to a
    longer one makes no difference. *)
Theorem prefix_of_longer_version_conflicts (w : World) (p : Program) (v : jsval)
    (keys : list string) (k : string) :
  check_required p required = ([], Ok tt) ->
  snd (resolve_version w p) = Ok v ->
  bucket_keys w (toStr (s3Bucket p)) = Some keys ->
  In k keys ->
  startsWith k (toStr (s3Path p) ++ "/" ++ toStr v) = true ->
  truthy (force p) = false ->
  run w p =
  ([Log ("Preparing to deploy version " ++ toStr v ++ " from "
         ++ toStr (localPath p) ++ " to " ++ "s3://" ++ toStr (s3Bucket p)
         ++ "/" ++ toStr (s3Path p));
    ListObjects (toStr (s3Bucket p)) (toStr (s3Path p) ++ "/" ++ toStr v);
    Log ("Version " ++ toStr v ++ " already exists in S3.");
    Log "If you wish to overwrite it please specify the --force option and run the script again."],
   Exited 1%Z).
Proof.
  intros Hreq Hv Hkeys Hin Hpre Hforce.
  assert (Hex : snd (pathExists w (toStr (s3Bucket p)) (versionS3Path p v)) = Ok true).
  { rewrite pathExists_eq, Hkeys. cbn [snd]. f_equal.
    apply existsb_exists. exists k. split; [exact Hin | exact Hpre]. }
  unfold run, main. rewrite Hreq, bind_ret_l.
  rewrite (publish_abort w p v Hv Hex Hforce). reflexivity.
Qed.

(** ** The required options *)

(** An option of the [required] list that is missing ends the run by
    [process.exit(1)] in front of any build and any request to the store. *)
Lemma missing_required_option (w : World) (p : Program) (opt : string) :
  In opt required -> program_get p opt = JUndefined ->
  none_of is_spawn (fst (run w p)) /\
  none_of is_store_op (fst (run w p)) /\
  snd (run w p) = Exited 1%Z.
Proof.
  intros Hin Hundef.
  destruct (check_required_cases p) as [Hreq | (opt' & _ & _ & Hreq)].
  - exfalso. unfold required in Hin, Hreq. cbn in Hreq.
    destruct Hin as [<- | [<- | [<- | []]]]; cbn in Hundef;
      destruct (s3Bucket p), (s3Path p), (localPath p); discriminate.
  - unfold run, main. rewrite Hreq, bind_exit. cbn. repeat split; reflexivity.
Qed.

(** C5 (refuted on the code): [publicUrlBase] is not in the [required] list.
    A command line without [--public-url-base] passes the check; the run lists
    the bucket, spawns the build with [PUBLIC_URL] set to
    ["undefined/app/2.0/"], uploads the files and ends with status 0. *)
Theorem missing_public_url_base_is_not_rejected :
  program_get no_base_program "publicUrlBase" = JUndefined /\
  ~ In "publicUrlBase" required /\
  check_required no_base_program required = ([], Ok tt) /\
  run fresh_world no_base_program =
  ([Log "Preparing to deploy version 2.0 from build to s3://bucket/app";
    ListObjects "bucket" "app/2.0";
    Log "Building app";
    Spawn "undefined/app/2.0/";
    ReadDir "build";
    Uploading "bucket" "app/2.0/main.js" "build/main.js" "application/javascript";
    ReadFile "build/main.js";
    PutObject "bucket" "app/2.0/main.js" "body of build/main.js" "public-read"
      "application/javascript";
    Uploading "bucket" "app/2.0/main.css" "build/main.css" "text/css";
    ReadFile "build/main.css";
    PutObject "bucket" "app/2.0/main.css" "body of build/main.css" "public-read"
      "text/css";
    Log "Deployment complete";
    Log "Main script can now be found here:";
    Log "undefined/app/2.0/main.js"],
   Completed) /\
  exit_status (snd (run fresh_world no_base_program)) = 0%Z.
Proof.
  split; [reflexivity|]. split.
  { cbn. intros [H|[H|[H|[]]]]; discriminate H. }
  repeat split; reflexivity.
Qed.

(** ** The theorems at sample runs *)

Lemma abort_when_version_exists_witness :
  snd (resolve_version demo_world (demo_program JUndefined)) = Ok (JString "1.2") /\
  snd (pathExists demo_world "bucket" "app/1.2") = Ok true /\
  truthy (force (demo_program JUndefined)) = false /\
  none_of is_spawn (fst (run demo_world (demo_program JUndefined))) /\
  none_of is_upload (fst (run demo_world (demo_program JUndefined))) /\
  snd (run demo_world (demo_program JUndefined)) = Exited 1%Z /\
  exit_status (snd (run demo_world (demo_program JUndefined))) <> 0%Z.
Proof.
  split; [reflexivity|]. split; [reflexivity|]. split; [reflexivity|].
  apply (abort_when_version_exists demo_world (demo_program JUndefined) (JString "1.2"));
    reflexivity.
Defined.

Lemma upload_fan_out_witness :
  let t := fst (run demo_world (demo_program (JBool true))) in
  filter is_upload_call t =
    [Uploading "bucket" "app/1.2/app.js" "build/static/app.js" "application/javascript";
     Uploading "bucket" "app/1.2/style.css" "build/static/style.css" "text/css"] /\
  List.length (filter is_upload_call t) = 2 /\
  filter is_put t =
    [PutObject "bucket" "app/1.2/app.js" "body of build/static/app.js" "public-read"
       "application/javascript";
     PutObject "bucket" "app/1.2/style.css" "body of build/static/style.css" "public-read"
       "text/css"] /\
  (snd (run demo_world (demo_program (JBool true))) = Completed <->
   Forall (upload_succeeds demo_world "bucket" "app/1.2" "build/static")
     ["app.js"; "style.css"]) /\
  (snd (run demo_world (demo_program (JBool true))) = Completed ->
   List.length (filter is_put t) = 2).
Proof.
  apply (upload_fan_out demo_world (demo_program (JBool true)) (JString "1.2")
           "build/static/"
           ["app.js"; "app.js.map"; "style.css"; "service-worker.js"]).
  - reflexivity.
  - reflexivity.
  - reflexivity.
  - discriminate.
  - vm_compute. do 6 right. left. reflexivity.
Defined.

Lemma only_css_files_fail_before_upload_witness :
  Forall (fun f => endsWith f ".css" = true) ["style.css"; "theme.css"] /\
  none_of is_upload (fst (run css_world (demo_program JUndefined))) /\
  none_of is_put (fst (run css_world (demo_program JUndefined))) /\
  exit_status (snd (run css_world (demo_program JUndefined))) <> 0%Z /\
  (In (ReadDir "build/static") (fst (run css_world (demo_program JUndefined))) ->
   snd (run css_world (demo_program JUndefined)) = Exited 1%Z /\
   last (fst (run css_world (demo_program JUndefined))) (Log "")
   = Log "No main js file found").
Proof.
  split; [repeat constructor|].
  apply (only_css_files_fail_before_upload css_world (demo_program JUndefined)
           "build/static/" ["style.css"; "theme.css"]).
  - reflexivity.
  - reflexivity.
  - repeat constructor.
Defined.

(** Version 1.2 was never published: no key lies under ["app/1.2/"].  The
    key of version 1.2.3 begins with ["app/1.2"], and publishing 1.2 is
    refused. *)
Lemma prefix_of_longer_version_conflicts_witness :
  bucket_keys demo_world "bucket" = Some ["app/1.2.3/main.js"] /\
  existsb (fun k => startsWith k "app/1.2/") ["app/1.2.3/main.js"] = false /\
  startsWith "app/1.2.3/main.js" "app/1.2" = true /\
  run demo_world (demo_program JUndefined) =
  ([Log "Preparing to deploy version 1.2 from build/static/ to s3://bucket/app";
    ListObjects "bucket" "app/1.2";
    Log "Version 1.2 already exists in S3.";
    Log "If you wish to overwrite it please specify the --force option and run the script again."],
   Exited 1%Z).
Proof.
  split; [reflexivity|]. split; [reflexivity|]. split; [reflexivity|].
  apply (prefix_of_longer_version_conflicts demo_world (demo_program JUndefined)
           (JString "1.2") ["app/1.2.3/main.js"] "app/1.2.3/main.js").
  - reflexivity.
  - reflexivity.
  - reflexivity.
  - left. reflexivity.
  - reflexivity.
  - reflexivity.
Defined.


(** * Further properties of whole runs *)

(** ** The shape of a run *)

Lemma check_required_find (p : Program) (opts : list string) :
  check_required p opts =
  match find (fun opt => is_undefined (program_get p opt)) opts with
  | Some opt => ([Log ("Missing required argument " ++ opt)], Exit 1%Z)
  | None => ([], Ok tt)
  end.
Proof.
  induction opts as [|opt opts IH]; [reflexivity|].
  cbn [check_required find].
  destruct (is_undefined (program_get p opt)).
  - unfold log. rewrite bind_emit. reflexivity.
  - rewrite bind_ret. exact IH.
Qed.

(** The run, with the check of the required options resolved. *)
Lemma run_eq (w : World) (p : Program) :
  run w p =
  match first_missing p with
  | Some opt => ([Log ("Missing required argument " ++ opt)], Exited 1%Z)
  | None =>
      match publish w p with
      | (t, Ok _) => (t, Completed)
      | (t, Exit c) => (t, Exited c)
      | (t, Throw e) => ((t ++ unhandledRejection e)%list, Crashed e)
      end
  end.
Proof.
  unfold run, main, first_missing. rewrite check_required_find.
  destruct (find _ required) as [opt|]; [reflexivity|].
  now rewrite bind_ret_l.
Qed.

(** [publish], stage by stage. *)
Lemma publish_eq (w : World) (p : Program) :
  publish w p =
  match snd (resolve_version w p) with
  | Ok v =>
      let vpath := versionS3Path p v in
      let head := [Log (preparing_line p v); ListObjects (toStr (s3Bucket p)) vpath] in
      match bucket_keys w (toStr (s3Bucket p)) with
      | None => (head, Throw (ErrorObj "listObjects failed"))
      | Some keys =>
          let found := existsb (fun k => startsWith k vpath) keys in
          if found && negb (truthy (force p))
          then
            ((head ++
              [Log ("Version " ++ toStr v ++ " already exists in S3.");
               Log "If you wish to overwrite it please specify the --force option and run the script again."])%list,
             Exit 1%Z)
          else
            let pre :=
              (head ++
               (if found
                then [Log ("Version " ++ toStr v ++ " already exists in S3.");
                      Log "Force flag is set, overwriting."]
                else []) ++
               [Log "Building app"; Spawn (public_url p v)])%list in
            match build_outcome w (public_url p v) with
            | BuildExit code =>
                if (code =? 0)%Z
                then ((pre ++ fst (publish_built w p vpath))%list,
                      snd (publish_built w p vpath))
                else (pre, Throw (ErrorCode code))
            | BuildKilled => (pre, Throw ErrorNull)
            | BuildError msg =>
                ((pre ++ [ErrLog ("Build error " ++ msg)])%list, Throw (ErrorObj msg))
            end
      end
  | Exit c => ([], Exit c)
  | Throw e => ([], Throw e)
  end.
Proof.
  unfold publish. rewrite resolve_version_eq.
  destruct (snd (resolve_version w p)) as [v|c|e]; [|reflexivity|reflexivity].
  cbn [snd].
  rewrite bind_ret_l. unfold log at 1. rewrite bind_emit, pathExists_eq.
  fold (preparing_line p v). fold (public_url p v).
  destruct (bucket_keys w (toStr (s3Bucket p))) as [keys|]; [|reflexivity].
  rewrite bind_ok. cbn [app].
  destruct (existsb (fun k => startsWith k (versionS3Path p v)) keys);
    destruct (truthy (force p)); cbn [andb negb]; try reflexivity;
    unfold build; rewrite ?bind_emit;
    destruct (build_outcome w (public_url p v)) as [code| |msg];
    try destruct (code =? 0)%Z; try reflexivity;
    destruct (publish_built w p (versionS3Path p v)) as [tb rb]; reflexivity.
Qed.

(** [publish_built], stage by stage. *)
Lemma publish_built_eq (w : World) (p : Program) (vpath : string) :
  publish_built w p vpath =
  match localPath p with
  | JString lp =>
      let dir := stripTrailingSlash lp in
      match readdirSync w dir with
      | Some files =>
          let js := jsFiles (sourceMaps p) files in
          let css := cssFiles (sourceMaps p) files in
          if Nat.eqb (List.length js) 0
          then ([ReadDir dir; Log "No main js file found"], Exit 1%Z)
          else
            let u := promise_all (uploads w (toStr (s3Bucket p)) vpath dir js css) in
            match snd u with
            | Ok _ => ((ReadDir dir :: fst u ++ done_lines p vpath)%list, Ok tt)
            | Exit c => (ReadDir dir :: fst u, Exit c)
            | Throw e => (ReadDir dir :: fst u, Throw e)
            end
      | None =>
          ([ReadDir dir; Log "Couldn't read script path dir."; Log ("ENOENT: " ++ dir)],
           Exit 1%Z)
      end
  | _ => ([], Throw (ErrorObj "localPath.replace is not a function"))
  end.
Proof.
  destruct (localPath p) as [|b|lp] eqn:Hlp;
    try (unfold publish_built; rewrite Hlp; reflexivity).
  cbv zeta.
  destruct (readdirSync w (stripTrailingSlash lp)) as [files|] eqn:Hdir.
  - apply (publish_built_listing w p vpath lp files Hlp Hdir).
  - unfold publish_built, readdir. rewrite Hlp. cbv iota. rewrite bind_ret, Hdir.
    reflexivity.
Qed.

Lemma resolve_version_cases (w : World) (p : Program) :
  (exists v, snd (resolve_version w p) = Ok v) \/
  (exists e, snd (resolve_version w p) = Throw e).
Proof.
  unfold resolve_version. destruct (truthy (appVersion p)); [left; eexists; reflexivity|].
  destruct (package_version w); [left | right]; eexists; reflexivity.
Qed.

(** A build that is rejected has spawned the process, has printed at most an
    error line, and did not end with code 0. *)
Lemma build_rejected (w : World) (url : string) (t : list Event) (e : JsError) :
  build w url = (t, Throw e) ->
  build_outcome w url <> BuildExit 0 /\
  exists line, t = Spawn url :: line /\ forallb is_errlog line = true.
Proof.
  unfold build. rewrite bind_emit.
  destruct (build_outcome w url) as [code| |msg].
  - destruct (code =? 0)%Z eqn:E; [discriminate|].
    intros H. injection H as <- _. split.
    + intros Heq. injection Heq as ->. discriminate E.
    + exists []. split; reflexivity.
  - intros H. injection H as <- _. split; [discriminate|]. exists []. split; reflexivity.
  - intros H. injection H as <- _. split; [discriminate|].
    eexists [_]. split; reflexivity.
Qed.

Lemma build_fulfilled (w : World) (url : string) :
  build_outcome w url = BuildExit 0 -> build w url = ([Spawn url], Ok tt).
Proof. intros H. unfold build. rewrite bind_emit, H. reflexivity. Qed.

(** Every run has one of the six shapes. *)
Lemma run_shape (w : World) (p : Program) :
  RunShape w p (fst (run w p)) (snd (run w p)).
Proof.
  rewrite run_eq.
  destruct (first_missing p) as [opt|] eqn:Hmiss; [now apply run_missing_option|].
  destruct (resolve_version_cases w p) as [[v Hv] | [e He]].
  2:{ rewrite publish_eq, He. now apply run_no_version. }
  destruct (bucket_keys w (toStr (s3Bucket p))) as [keys|] eqn:Hkeys.
  2:{ rewrite publish_eq, Hv, Hkeys. now apply run_list_failed. }
  destruct (found_in keys p v && negb (truthy (force p))) eqn:Hgate.
  { rewrite publish_eq, Hv, Hkeys. cbv zeta. fold (found_in keys p v). rewrite Hgate.
    apply andb_prop in Hgate. destruct Hgate as [Hf Hforce].
    apply negb_true_iff in Hforce. now apply (run_conflict w p v keys). }
  assert (Hgo : found_in keys p v = false \/ truthy (force p) = true).
  { apply andb_false_iff in Hgate. destruct Hgate as [H|H]; [left; exact H|].
    right. now apply negb_false_iff in H. }
  destruct (build w (public_url p v)) as [t r] eqn:Hbuild.
  assert (Hpub : publish w p =
                 (let pre := (head_events p v ++ overwrite_lines v (found_in keys p v)
                              ++ [Log "Building app"])%list in
                  match r with
                  | Ok _ => ((pre ++ t ++ fst (publish_built w p (versionS3Path p v)))%list,
                             snd (publish_built w p (versionS3Path p v)))
                  | Exit c => ((pre ++ t)%list, Exit c)
                  | Throw e => ((pre ++ t)%list, Throw e)
                  end)).
  { rewrite publish_eq, Hv, Hkeys. cbv zeta. fold (found_in keys p v). rewrite Hgate.
    unfold build in Hbuild. rewrite bind_emit in Hbuild.
    unfold head_events, overwrite_lines.
    destruct (build_outcome w (public_url p v)) as [code| |msg];
      [destruct (code =? 0)%Z|..]; injection Hbuild as <- <-;
      destruct (found_in keys p v); reflexivity. }
  rewrite Hpub. cbv zeta.
  destruct r as [[]|c|e].
  - assert (Hout : build_outcome w (public_url p v) = BuildExit 0).
    { unfold build in Hbuild. rewrite bind_emit in Hbuild.
      destruct (build_outcome w (public_url p v)) as [code| |msg];
        [destruct (code =? 0)%Z eqn:E|..]; try discriminate Hbuild.
      apply Z.eqb_eq in E. now subst code. }
    rewrite (build_fulfilled w _ Hout) in Hbuild. injection Hbuild as <-.
    pose proof (run_built w p v keys Hmiss Hv Hkeys Hgo Hout) as Hshape.
    destruct (snd (publish_built w p (versionS3Path p v))) as [[]|c|e]; cbn [fst snd];
      rewrite <- ?app_assoc; cbn [app]; rewrite ?app_nil_r in Hshape;
      rewrite <- ?app_assoc; exact Hshape.
  - exfalso. unfold build in Hbuild. rewrite bind_emit in Hbuild.
    destruct (build_outcome w (public_url p v)) as [code| |msg];
      [destruct (code =? 0)%Z|..]; discriminate Hbuild.
  - cbn [fst snd].
    pose proof (run_build_failed w p v keys t e Hmiss Hv Hkeys Hgo Hbuild) as Hshape.
    rewrite <- !app_assoc. cbn [app]. rewrite <- ?app_assoc. exact Hshape.
Qed.

(** ** Runs that end early *)

Ltac by_shape w p :=
  let Hshape := fresh "Hshape" in
  let t := fresh "t" in
  let o := fresh "o" in
  pose proof (run_shape w p) as Hshape;
  remember (fst (run w p)) as t eqn:Ht in *;
  remember (snd (run w p)) as o eqn:Ho in *;
  clear Ht Ho;
  destruct Hshape as
    [ opt Hmiss
    | err Hmiss Hver
    | v Hmiss Hver Hkeys
    | v keys Hmiss Hver Hkeys Hfound Hforce
    | v keys tb err Hmiss Hver Hkeys Hgo Hbuild
    | v keys Hmiss Hver Hkeys Hgo Hbuild ].

Lemma errlog_is_early (t : list Event) :
  forallb is_errlog t = true -> forallb is_early t = true.
Proof.
  induction t as [|e t IH]; [reflexivity|].
  cbn [forallb]. intros H. apply andb_prop in H. destruct H as [He Ht].
  destruct e; try discriminate He. cbn. now apply IH.
Qed.

Lemma unhandledRejection_errlog (e : JsError) :
  forallb is_errlog (unhandledRejection e) = true.
Proof. destruct e; reflexivity. Qed.

Lemma overwrite_lines_early (v : jsval) (found : bool) :
  forallb is_early (overwrite_lines v found) = true.
Proof. destruct found; reflexivity. Qed.

(** The events up to and including the spawn of the build are early ones. *)
Lemma pre_build_early (p : Program) (v : jsval) (found : bool) (t : list Event) :
  forallb is_early t = true ->
  forallb is_early
    (head_events p v ++ overwrite_lines v found ++ Log "Building app" :: t)%list = true.
Proof.
  intros Ht. rewrite !forallb_app, overwrite_lines_early. cbn. exact Ht.
Qed.

Lemma build_rejected_early (w : World) (url : string) (t : list Event) (e : JsError) :
  build w url = (t, Throw e) ->
  forallb is_early (t ++ unhandledRejection e)%list = true.
Proof.
  intros H. destruct (build_rejected w url t e H) as [_ (line & -> & Hline)].
  rewrite forallb_app, early_unhandledRejection, andb_true_r.
  cbn [forallb is_early andb]. now apply errlog_is_early.
Qed.

(** X11: the options of the [required] list are checked in their order, and
    the first one that is missing is the one reported: the run prints the
    line naming it and ends by [process.exit(1)] without any other event. *)
Theorem first_missing_option_is_reported (w : World) (p : Program) (opt : string) :
  first_missing p = Some opt ->
  run w p = ([Log ("Missing required argument " ++ opt)], Exited 1%Z).
Proof. intros H. now rewrite run_eq, H. Qed.

(** X12: without [--app-version] and without a readable project manifest the
    run is rejected at once: nothing is printed by [console.log], no request
    is sent and no build is spawned; only the rejection handler writes to the
    error stream. *)
Theorem unresolved_version_crashes_first (w : World) (p : Program) :
  first_missing p = None ->
  truthy (appVersion p) = false ->
  package_version w = None ->
  forallb is_errlog (fst (run w p)) = true /\
  exists e, snd (run w p) = Crashed e.
Proof.
  intros Hnone Happ Hpkg.
  assert (Hres : snd (resolve_version w p) =
                 Throw (ErrorObj "Cannot find module package.json")).
  { unfold resolve_version. now rewrite Happ, Hpkg. }
  by_shape w p; try (rewrite Hres in Hver; discriminate Hver);
    try (rewrite Hnone in Hmiss; discriminate Hmiss).
  split; [apply unhandledRejection_errlog | eauto].
Qed.

(** X13: when the list request fails, the run is rejected before the build:
    no process is spawned, no upload is started, and the status is not 0. *)
Theorem failed_list_request_stops_the_run (w : World) (p : Program) :
  bucket_keys w (toStr (s3Bucket p)) = None ->
  none_of is_spawn (fst (run w p)) /\
  none_of is_upload (fst (run w p)) /\
  exit_status (snd (run w p)) <> 0%Z.
Proof.
  intros Hnone. unfold none_of.
  by_shape w p; try (rewrite Hnone in Hkeys; discriminate Hkeys).
  - repeat split; try reflexivity. discriminate.
  - destruct err; repeat split; try reflexivity; discriminate.
  - repeat split; try reflexivity. discriminate.
Qed.

(** X14: when the build of the run, spawned with the run's [PUBLIC_URL],
    does not end with code 0, the run is rejected behind it: the local
    directory is not read, no upload is started, and the status is not 0. *)
Theorem failed_build_stops_the_run (w : World) (p : Program) (ver : jsval) :
  snd (resolve_version w p) = Ok ver ->
  build_outcome w (public_url p ver) <> BuildExit 0 ->
  none_of is_upload (fst (run w p)) /\
  (forall path, ~ In (ReadDir path) (fst (run w p))) /\
  exit_status (snd (run w p)) <> 0%Z.
Proof.
  intros Hv Hfail. unfold none_of.
  assert (Hearly : forall t : list Event, forallb is_early t = true ->
            existsb is_upload t = false /\ forall path, ~ In (ReadDir path) t).
  { intros t Ht. destruct (early_no_upload t Ht) as (H1 & _ & _ & _ & H5). now split. }
  by_shape w p.
  - destruct (Hearly [Log ("Missing required argument " ++ opt)] eq_refl) as [H1 H5].
    repeat split; auto. discriminate.
  - destruct (Hearly _ (early_unhandledRejection err)) as [H1 H5].
    repeat split; auto. discriminate.
  - destruct (Hearly (head_events p v ++ unhandledRejection (ErrorObj "listObjects failed"))%list
                eq_refl) as [H1 H5].
    repeat split; auto. discriminate.
  - match goal with
    | |- existsb _ ?t = false /\ _ => destruct (Hearly t eq_refl) as [H1 H5]
    end.
    repeat split; auto. discriminate.
  - match goal with
    | |- existsb _ ?t = false /\ _ => destruct (Hearly t) as [H1 H5]
    end.
    { apply pre_build_early. now apply (build_rejected_early w (public_url p v)). }
    repeat split; auto. discriminate.
  - rewrite Hv in Hver. injection Hver as <-. now contradiction Hfail.
Qed.

(** X15: when the local directory cannot be read, no upload is started and
    the status is not 0; a run that got as far as reading it prints
    ['Couldn't read script path dir.'] and ends by [process.exit(1)]. *)
Theorem unreadable_directory_stops_the_run (w : World) (p : Program) (lp : string) :
  localPath p = JString lp ->
  readdirSync w (stripTrailingSlash lp) = None ->
  none_of is_upload (fst (run w p)) /\
  exit_status (snd (run w p)) <> 0%Z /\
  (In (ReadDir (stripTrailingSlash lp)) (fst (run w p)) ->
   snd (run w p) = Exited 1%Z /\
   In (Log "Couldn't read script path dir.") (fst (run w p))).
Proof.
  intros Hlp Hdir. unfold none_of.
  assert (Hearly : forall (t : list Event) (o : Outcome),
            forallb is_early t = true -> exit_status o <> 0%Z ->
            existsb is_upload t = false /\ exit_status o <> 0%Z /\
            (In (ReadDir (stripTrailingSlash lp)) t ->
             o = Exited 1%Z /\ In (Log "Couldn't read script path dir.") t)).
  { intros t o Ht Ho. destruct (early_no_upload t Ht) as (H1 & _ & _ & _ & H5).
    split; [exact H1|]. split; [exact Ho|]. intros Hin. now apply H5 in Hin. }
  by_shape w p.
  - apply Hearly; [reflexivity | discriminate].
  - apply Hearly; [apply early_unhandledRejection | discriminate].
  - apply Hearly; [reflexivity | discriminate].
  - apply Hearly; [reflexivity | discriminate].
  - apply Hearly; [|discriminate].
    apply pre_build_early. now apply (build_rejected_early w (public_url p v)).
  - rewrite publish_built_eq, Hlp. cbv zeta. rewrite Hdir. cbn [fst snd].
    rewrite app_nil_r.
    destruct (early_no_upload _ (pre_build_early p v (found_in keys p v)
                                   [Spawn (public_url p v)] eq_refl))
      as (H1 & _).
    split.
    { change (Log "Building app" :: Spawn (public_url p v) :: ?l)
        with ((Log "Building app" :: [Spawn (public_url p v)]) ++ l)%list.
      rewrite !app_assoc, existsb_app, <- !app_assoc, H1. reflexivity. }
    split; [discriminate|].
    intros _. split; [reflexivity|].
    apply in_or_app. right. apply in_or_app. right. cbn. auto.
Qed.

(** ** Runs that reach the uploads *)

Lemma split_behind (E R t1 t2 : list Event) (e : Event) :
  (E ++ R = t1 ++ e :: t2)%list -> ~ In e E ->
  exists t1', t1 = (E ++ t1')%list /\ R = (t1' ++ e :: t2)%list.
Proof.
  revert t1. induction E as [|x E IH]; intros t1 Heq Hnot.
  - exists t1. split; [reflexivity | exact Heq].
  - destruct t1 as [|y t1]; cbn [app] in Heq; injection Heq as Hx Heq.
    + exfalso. apply Hnot. left. exact Hx.
    + subst y. destruct (IH t1 Heq) as (t1' & -> & HR).
      * intros Hin. apply Hnot. right. exact Hin.
      * exists t1'. split; [reflexivity | exact HR].
Qed.

Lemma in_existsb (f : Event -> bool) (e : Event) (t : list Event) :
  In e t -> f e = true -> existsb f t = true.
Proof. intros Hin Hf. apply existsb_exists. exists e. now split. Qed.

(** [publish_built] starts by reading the directory, unless [localPath] is
    no string. *)
Lemma publish_built_starts (w : World) (p : Program) (vpath : string) :
  (exists lp rest, localPath p = JString lp /\
     fst (publish_built w p vpath) = ReadDir (stripTrailingSlash lp) :: rest) \/
  (fst (publish_built w p vpath) = [] /\ exists e, snd (publish_built w p vpath) = Throw e).
Proof.
  rewrite publish_built_eq.
  destruct (localPath p) as [|b|lp];
    try (right; split; [reflexivity | eexists; reflexivity]).
  left. exists lp. cbv zeta.
  destruct (readdirSync w (stripTrailingSlash lp)) as [files|];
    [|eexists; split; reflexivity].
  destruct (Nat.eqb _ 0); [eexists; split; reflexivity|].
  destruct (snd (promise_all _)); cbn [fst]; eexists; split; reflexivity.
Qed.

(** X16: uploads come behind the build and behind the reading of the
    directory.  In front of every start of an upload and every put request of
    a run, the build was spawned, it ended with code 0, and the local
    directory was read. *)
Theorem uploads_only_behind_the_build (w : World) (p : Program)
    (t1 t2 : list Event) (e : Event) :
  fst (run w p) = (t1 ++ e :: t2)%list ->
  is_upload e = true ->
  exists url path,
    In (Spawn url) t1 /\ build_outcome w url = BuildExit 0 /\ In (ReadDir path) t1.
Proof.
  intros Hsplit Hup.
  assert (Hin : In e (fst (run w p))) by (rewrite Hsplit; apply in_elt).
  assert (Hearly : forall t : list Event, forallb is_early t = true -> ~ In e t).
  { intros t Ht Hint. destruct (early_no_upload t Ht) as (H1 & _).
    rewrite (in_existsb is_upload e t Hint Hup) in H1. discriminate H1. }
  by_shape w p;
    try solve [ exfalso; revert Hin; apply Hearly;
                first [ reflexivity
                      | apply early_unhandledRejection
                      | apply pre_build_early;
                        now apply (build_rejected_early w (public_url p v)) ] ].
  set (E := (head_events p v ++ overwrite_lines v (found_in keys p v)
               ++ [Log "Building app"; Spawn (public_url p v)])%list).
    assert (HE : forallb is_early E = true)
      by (apply (pre_build_early p v _ [Spawn (public_url p v)]); reflexivity).
    match type of Hsplit with
    | (_ ++ _ ++ _ :: _ :: ?R)%list = _ =>
        assert (Hsplit' : (E ++ R)%list = (t1 ++ e :: t2)%list)
          by (rewrite <- Hsplit; unfold E; rewrite <- !app_assoc; reflexivity)
    end.
    destruct (split_behind _ _ _ _ _ Hsplit' (Hearly E HE)) as (t1' & -> & HR).
    exists (public_url p v).
    destruct (publish_built_starts w p (versionS3Path p v))
      as [(lp & rest & _ & Hstart) | (Hnil & e' & He')].
    + exists (stripTrailingSlash lp). split; [|split; [exact Hbuild|]].
      * apply in_or_app. left. unfold E. apply in_or_app. right.
        apply in_or_app. right. cbn. auto.
      * rewrite Hstart in HR. destruct t1' as [|x t1']; cbn [app] in HR;
          injection HR as Hx _.
        -- subst e. discriminate Hup.
        -- subst x. apply in_or_app. right. left. reflexivity.
    + exfalso. rewrite Hnil, He' in HR. cbn [app] in HR.
      apply (Hearly _ (early_unhandledRejection e')). rewrite HR. apply in_elt.
Qed.

(** The put requests of [publish_built]: each one stores, publicly readable
    and under the version path, the content of a selected file of the local
    directory, with the content type of the file's class. *)
Lemma publish_built_puts (w : World) (p : Program) (vpath : string)
    (b k body acl ty : string) :
  In (PutObject b k body acl ty) (fst (publish_built w p vpath)) ->
  exists lp files f,
    localPath p = JString lp /\
    readdirSync w (stripTrailingSlash lp) = Some files /\
    b = toStr (s3Bucket p) /\
    k = vpath ++ "/" ++ f /\
    readFileSync w (stripTrailingSlash lp ++ "/" ++ f) = Some body /\
    acl = "public-read" /\
    ((ty = "application/javascript" /\ In f (jsFiles (sourceMaps p) files)) \/
     (ty = "text/css" /\ In f (cssFiles (sourceMaps p) files))).
Proof.
  rewrite publish_built_eq.
  destruct (localPath p) as [|b0|lp] eqn:Hlp; try (intros []).
  cbv zeta.
  destruct (readdirSync w (stripTrailingSlash lp)) as [files|] eqn:Hdir.
  2:{ cbn. intros [H|[H|[H|[]]]]; discriminate H. }
  destruct (Nat.eqb _ 0).
  { cbn. intros [H|[H|[]]]; discriminate H. }
  intros Hin.
  assert (Hput : In (PutObject b k body acl ty)
                   (filter is_put
                      (fst (promise_all
                              (uploads w (toStr (s3Bucket p)) vpath (stripTrailingSlash lp)
                                 (jsFiles (sourceMaps p) files)
                                 (cssFiles (sourceMaps p) files)))))).
  { apply filter_In. split; [|reflexivity].
    destruct (snd (promise_all _)); cbn [fst] in Hin;
      destruct Hin as [H|Hin]; try discriminate H; try exact Hin.
    apply in_app_or in Hin. destruct Hin as [Hin|Hin]; [exact Hin|].
    cbn in Hin. destruct Hin as [H|[H|[H|[]]]]; discriminate H. }
  rewrite uploads_puts in Hput. apply in_app_or in Hput.
  exists lp, files.
  destruct Hput as [Hput|Hput]; unfold put_requests in Hput;
    apply in_flat_map in Hput; destruct Hput as (f & Hf & Hput);
    (destruct (readFileSync w (stripTrailingSlash lp ++ "/" ++ f)) as [body'|] eqn:Hread;
     [destruct Hput as [Hput|[]] | destruct Hput]);
    injection Hput as <- <- <- <- <-; exists f; repeat split; auto.
Qed.

(** X17: every put request of a run stores the content of a selected file of
    the local directory under [s3Path/version/] in the configured bucket,
    publicly readable, and with the content type of the file's class.
    Nothing is ever written elsewhere. *)
Theorem writes_stay_under_the_version_path (w : World) (p : Program)
    (b k body acl ty : string) :
  In (PutObject b k body acl ty) (fst (run w p)) ->
  exists v lp files f,
    snd (resolve_version w p) = Ok v /\
    localPath p = JString lp /\
    readdirSync w (stripTrailingSlash lp) = Some files /\
    b = toStr (s3Bucket p) /\
    k = versionS3Path p v ++ "/" ++ f /\
    readFileSync w (stripTrailingSlash lp ++ "/" ++ f) = Some body /\
    acl = "public-read" /\
    ((ty = "application/javascript" /\ In f (jsFiles (sourceMaps p) files)) \/
     (ty = "text/css" /\ In f (cssFiles (sourceMaps p) files))).
Proof.
  intros Hin.
  assert (Hearly : forall t : list Event, forallb is_early t = true ->
                     ~ In (PutObject b k body acl ty) t).
  { intros t Ht Hint. destruct (early_no_upload t Ht) as (_ & H2 & _).
    rewrite (in_existsb is_put _ t Hint eq_refl) in H2. discriminate H2. }
  by_shape w p;
    try solve [ exfalso; revert Hin; apply Hearly;
                first [ reflexivity
                      | apply early_unhandledRejection
                      | apply pre_build_early;
                        now apply (build_rejected_early w (public_url p v)) ] ].
  apply in_app_or in Hin. destruct Hin as [Hin|Hin];
    [exfalso; revert Hin; apply Hearly; reflexivity|].
  apply in_app_or in Hin. destruct Hin as [Hin|Hin];
    [exfalso; revert Hin; apply Hearly; apply overwrite_lines_early|].
  destruct Hin as [H|[H|Hin]]; try discriminate H.
  apply in_app_or in Hin. destruct Hin as [Hin|Hin].
  - destruct (publish_built_puts w p _ b k body acl ty Hin)
      as (lp & files & f & H1 & H2 & H3 & H4 & H5 & H6 & H7).
    exists v, lp, files, f. repeat split; assumption.
  - exfalso. destruct (snd (publish_built w p (versionS3Path p v))) as [[]|c|e];
      try destruct Hin.
    revert Hin. apply Hearly. apply early_unhandledRejection.
Qed.

(** The line printed last names [main.js] right under the [PUBLIC_URL] of the
    build. *)
Lemma main_js_under_public_url (p : Program) (v : jsval) :
  deslashUrl (toStr (publicUrlBase p) ++ "/" ++ versionS3Path p v ++ "/main.js")
  = public_url p v ++ "main.js".
Proof.
  unfold public_url, deslashUrl.
  rewrite <- (deslash_from_append_name "main.js" eq_refl).
  f_equal. now rewrite !string_app_assoc.
Qed.

(** X18: in a run that completes, the URL printed at the end is the
    [PUBLIC_URL] the build was spawned with, followed by [main.js]. *)
Theorem reported_url_lies_under_public_url (w : World) (p : Program) :
  snd (run w p) = Completed ->
  exists url,
    In (Spawn url) (fst (run w p)) /\
    last (fst (run w p)) (Log "") = Log (url ++ "main.js").
Proof.
  intros Hdone.
  by_shape w p; try discriminate Hdone.
  exists (public_url p v).
  destruct (snd (publish_built w p (versionS3Path p v))) as [[]|c|e] eqn:Hpb;
    try discriminate Hdone.
  destruct (publish_built_ok w p _ Hpb) as [t' Ht'].
  split.
  - apply in_or_app. right. apply in_or_app. right. right. left. reflexivity.
  - rewrite Ht', app_nil_r. unfold done_lines.
    change (Log "Building app" :: Spawn (public_url p v) :: ?l)
      with ([Log "Building app"; Spawn (public_url p v)] ++ l)%list.
    rewrite !app_assoc, last_app_cons. cbn [last].
    now rewrite main_js_under_public_url.
Qed.

Lemma uploadFileToS3_no_exit (w : World) (bucket key file type : string) (c : Z) :
  snd (uploadFileToS3 w bucket key file type) <> Exit c.
Proof.
  unfold uploadFileToS3. destruct (readFileSync w file); [|discriminate].
  destruct (putObject_ok w bucket key); discriminate.
Qed.

Lemma promise_all_no_exit (l : list (M unit)) (c : Z) :
  Forall (fun m => forall c', snd m <> Exit c') l ->
  snd (promise_all l) <> Exit c.
Proof.
  induction 1 as [|[t r] l Hm _ IH]; [discriminate|].
  cbn [promise_all]. destruct (promise_all l) as [t' r']. cbn [snd] in *.
  destruct r as [[]|c'|e]; [exact IH | now contradiction (Hm c') | discriminate].
Qed.

Lemma uploads_no_exit (w : World) (bucket vpath lpath : string) (js css : list string)
    (c : Z) :
  snd (promise_all (uploads w bucket vpath lpath js css)) <> Exit c.
Proof.
  apply promise_all_no_exit. unfold uploads.
  apply Forall_app. split; apply Forall_map, Forall_forall; intros f _ c';
    apply uploadFileToS3_no_exit.
Qed.

(** X19: a run ends in one of three ways: [publish] is fulfilled (status 0),
    [process.exit] is called, always with status 1, or [publish] is rejected
    and the error is rethrown.  The status is 0 exactly when [publish] was
    fulfilled. *)
Theorem run_outcomes (w : World) (p : Program) :
  (snd (run w p) = Completed \/ snd (run w p) = Exited 1%Z \/
   exists e, snd (run w p) = Crashed e) /\
  (exit_status (snd (run w p)) = 0%Z <-> snd (run w p) = Completed).
Proof.
  assert (H : snd (run w p) = Completed \/ snd (run w p) = Exited 1%Z \/
              exists e, snd (run w p) = Crashed e).
  { by_shape w p; eauto.
    rewrite publish_built_eq.
    destruct (localPath p) as [|b|lp]; cbn [snd]; eauto.
    cbv zeta. destruct (readdirSync w (stripTrailingSlash lp)) as [files|]; cbn [snd]; eauto.
    destruct (Nat.eqb _ 0); cbn [snd]; eauto.
    destruct (snd (promise_all _)) as [[]|c|e] eqn:Hu; cbn [snd]; eauto.
    now apply uploads_no_exit in Hu. }
  split; [exact H|].
  destruct H as [-> | [-> | [e ->]]]; cbn; split; intros H; try reflexivity;
    discriminate H.
Qed.

(** ** The overwrite gate and the version *)

Lemma publish_built_bucket_keys (w : World) (k : string -> option (list string))
    (p : Program) (vpath : string) :
  publish_built (with_bucket_keys w k) p vpath = publish_built w p vpath.
Proof. reflexivity. Qed.

(** X20: with [force] set, a version that is found in the bucket is published
    like one that is not: compared with the run on an empty bucket, the run
    ends in the same way and issues the same events, apart from the lines it
    prints. *)
Theorem force_publishes_like_a_fresh_version (w : World) (p : Program)
    (keys : list string) :
  bucket_keys w (toStr (s3Bucket p)) = Some keys ->
  truthy (force p) = true ->
  snd (run w p) = snd (run (with_bucket_keys w (fun _ => Some [])) p) /\
  filter (fun e => negb (is_log e)) (fst (run w p)) =
  filter (fun e => negb (is_log e))
    (fst (run (with_bucket_keys w (fun _ => Some [])) p)).
Proof.
  intros Hkeys Hforce.
  rewrite !run_eq.
  destruct (first_missing p) as [opt|]; [split; reflexivity|].
  rewrite !publish_eq.
  change (snd (resolve_version (with_bucket_keys w (fun _ => Some [])) p))
    with (snd (resolve_version w p)).
  destruct (snd (resolve_version w p)) as [v|c|e]; [|split; reflexivity..].
  cbv zeta. rewrite Hkeys, Hforce.
  cbn [bucket_keys with_bucket_keys build_outcome existsb andb negb].
  rewrite andb_false_r.
  rewrite publish_built_bucket_keys.
  destruct (existsb _ keys);
    (destruct (build_outcome w (public_url p v)) as [code| |msg];
     [destruct (code =? 0)%Z; [destruct (publish_built w p (versionS3Path p v)) as [tb [[]|c|e]]|]|..]);
    split; reflexivity.
Qed.

(** X21: an [--app-version] that counts as true makes the project manifest
    irrelevant: the run is the same whatever the manifest holds, and whether
    it can be read at all. *)
Theorem app_version_overrides_manifest (w : World) (p : Program) (m : option jsval) :
  truthy (appVersion p) = true ->
  run (with_package_version w m) p = run w p.
Proof.
  intros Happ.
  rewrite !run_eq.
  destruct (first_missing p) as [opt|]; [reflexivity|].
  assert (Hpub : publish (with_package_version w m) p = publish w p).
  { unfold publish, resolve_version. rewrite Happ. reflexivity. }
  now rewrite Hpub.
Qed.

(** X22: when no stored key begins with the version path, [--force] makes no
    difference: the run is the same with any value of the flag. *)
Theorem force_is_idle_on_a_fresh_version (w : World) (p : Program) (v f : jsval)
    (keys : list string) :
  snd (resolve_version w p) = Ok v ->
  bucket_keys w (toStr (s3Bucket p)) = Some keys ->
  found_in keys p v = false ->
  run w (with_force p f) = run w p.
Proof.
  intros Hv Hkeys Hfound.
  rewrite !run_eq.
  change (first_missing (with_force p f)) with (first_missing p).
  destruct (first_missing p) as [opt|]; [reflexivity|].
  assert (Hpub : publish w (with_force p f) = publish w p).
  { rewrite !publish_eq.
    change (snd (resolve_version w (with_force p f))) with (snd (resolve_version w p)).
    rewrite Hv. cbv zeta.
    change (toStr (s3Bucket (with_force p f))) with (toStr (s3Bucket p)).
    rewrite Hkeys.
    change (versionS3Path (with_force p f) v) with (versionS3Path p v).
    fold (found_in keys p v). rewrite Hfound. cbn [andb].
    reflexivity. }
  now rewrite Hpub.
Qed.

(** ** Partial publishes, and the requests of a run *)

Lemma in_put_requests (w : World) (bucket vpath lpath type : string)
    (names : list string) (g body : string) :
  In g names -> readFileSync w (lpath ++ "/" ++ g) = Some body ->
  In (PutObject bucket (vpath ++ "/" ++ g) body "public-read" type)
     (put_requests w bucket vpath lpath type names).
Proof.
  intros Hg Hread. unfold put_requests. apply in_flat_map. exists g.
  split; [exact Hg|]. rewrite Hread. left. reflexivity.
Qed.

(** X23: one failing upload does not hold back the others.  In a run that
    reaches the upload stage, the put request of every selected file that can
    be read is sent, whatever happens to the other uploads; and if the upload
    of some selected file fails, the run is rejected all the same. *)
Theorem failing_upload_leaves_the_others_sent (w : World) (p : Program) (ver : jsval)
    (lp : string) (files : list string) :
  let bucket := toStr (s3Bucket p) in
  let vpath := versionS3Path p ver in
  let lpath := stripTrailingSlash lp in
  let js := jsFiles (sourceMaps p) files in
  let css := cssFiles (sourceMaps p) files in
  snd (resolve_version w p) = Ok ver ->
  localPath p = JString lp ->
  readdirSync w lpath = Some files ->
  js <> [] ->
  In (ReadDir lpath) (fst (run w p)) ->
  (forall g body, In g js -> readFileSync w (lpath ++ "/" ++ g) = Some body ->
     In (PutObject bucket (vpath ++ "/" ++ g) body "public-read" "application/javascript")
        (fst (run w p))) /\
  (forall g body, In g css -> readFileSync w (lpath ++ "/" ++ g) = Some body ->
     In (PutObject bucket (vpath ++ "/" ++ g) body "public-read" "text/css")
        (fst (run w p))) /\
  (forall f, In f (js ++ css) -> ~ upload_succeeds w bucket vpath lpath f ->
     exists e, snd (run w p) = Crashed e).
Proof.
  intros bucket vpath lpath js css Hv Hlp Hdir Hjs Hreach.
  by_shape w p;
    try solve [ exfalso; revert Hreach;
                match goal with
                | |- In _ ?t -> False =>
                    assert (Hearly : forallb is_early t = true); [|
                      destruct (early_no_upload t Hearly) as (_ & _ & _ & _ & H5);
                      apply H5 ]
                end;
                first [ reflexivity
                      | apply early_unhandledRejection
                      | apply pre_build_early;
                        now apply (build_rejected_early w (public_url p v)) ] ].
  clear Hreach. rewrite Hv in Hver. injection Hver as ->.
  rewrite (publish_built_listing w p _ lp files Hlp Hdir).
  fold js css lpath vpath bucket.
  destruct (Nat.eqb (List.length js) 0) eqn:Hlen.
  { apply Nat.eqb_eq in Hlen. destruct js; [now contradiction Hjs | discriminate]. }
  cbv zeta.
  pose proof (uploads_puts w bucket vpath lpath js css) as Hputs.
  pose proof (uploads_ok w bucket vpath lpath js css) as Hok.
  pose proof (uploads_no_exit w bucket vpath lpath js css) as Hnoexit.
  set (u := promise_all (uploads w bucket vpath lpath js css)) in *.
  assert (Hsent : forall e, In e (filter is_put (fst u)) ->
            In e (head_events p v ++ overwrite_lines v (found_in keys p v) ++
                  Log "Building app" :: Spawn (public_url p v) ::
                  fst (match snd u with
                       | Ok _ => ((ReadDir lpath :: fst u ++ done_lines p vpath)%list, Ok tt)
                       | Exit c => (ReadDir lpath :: fst u, Exit c)
                       | Throw e => (ReadDir lpath :: fst u, Throw e)
                       end) ++
                  match snd (match snd u with
                             | Ok _ => ((ReadDir lpath :: fst u ++ done_lines p vpath)%list, Ok tt)
                             | Exit c => (ReadDir lpath :: fst u, Exit c)
                             | Throw e => (ReadDir lpath :: fst u, Throw e)
                             end) with
                  | Throw e => unhandledRejection e
                  | _ => []
                  end)%list).
  { intros e He. apply filter_In in He. destruct He as [He _].
    apply in_or_app. right. apply in_or_app. right. right. right.
    apply in_or_app. left.
    destruct (snd u); cbn [fst]; right; [apply in_or_app; left|..]; exact He. }
  split; [|split].
  - intros g body Hg Hread. apply Hsent. rewrite Hputs. apply in_or_app. left.
    now apply in_put_requests.
  - intros g body Hg Hread. apply Hsent. rewrite Hputs. apply in_or_app. right.
    now apply in_put_requests.
  - intros f Hf Hfail.
    destruct (snd u) as [[]|c|e] eqn:Hu; cbn [snd].
    + exfalso. apply Hfail.
      assert (Hall : Forall (upload_succeeds w bucket vpath lpath) (js ++ css))
        by now apply Hok.
      rewrite Forall_forall in Hall. now apply Hall.
    + now contradiction (Hnoexit c).
    + eauto.
Qed.

(** X24: the [PUBLIC_URL] handed to the build always ends in a slash,
    whatever the base URL, the path and the version are. *)
Theorem public_url_ends_in_slash (p : Program) (v : jsval) :
  exists o, public_url p v = o ++ "/".
Proof.
  unfold public_url, deslashUrl.
  replace (toStr (publicUrlBase p) ++ "/" ++ versionS3Path p v ++ "/")
    with ((toStr (publicUrlBase p) ++ "/" ++ versionS3Path p v) ++ "/")
    by now rewrite !string_app_assoc.
  apply deslash_from_last.
Qed.

Lemma uploads_events_kind (w : World) (bucket vpath lpath : string)
    (js css : list string) :
  Forall (fun e => is_spawn e = false /\ is_list e = false)
    (fst (promise_all (uploads w bucket vpath lpath js css))).
Proof.
  assert (H : forall l : list (M unit),
            Forall (fun m => Forall (fun e => is_spawn e = false /\ is_list e = false) (fst m)) l ->
            Forall (fun e => is_spawn e = false /\ is_list e = false) (fst (promise_all l))).
  { induction 1 as [|m l Hm _ IH]; [constructor|].
    rewrite promise_all_cons. apply Forall_app. now split. }
  apply H. unfold uploads, uploadJsFileToS3, uploadCssFileToS3.
  apply Forall_app. split; apply Forall_map, Forall_forall; intros f _;
    rewrite uploadFileToS3_events;
    destruct (readFileSync w _); repeat constructor.
Qed.

Lemma filter_none {A} (f : A -> bool) (l : list A) :
  Forall (fun x => f x = false) l -> filter f l = [].
Proof.
  induction 1 as [|x l Hx _ IH]; [reflexivity|]. cbn [filter]. now rewrite Hx.
Qed.

(** [publish_built] neither lists the bucket nor spawns a process. *)
Lemma publish_built_kind (w : World) (p : Program) (vpath : string) :
  filter is_spawn (fst (publish_built w p vpath)) = [] /\
  filter is_list (fst (publish_built w p vpath)) = [].
Proof.
  rewrite publish_built_eq.
  destruct (localPath p) as [|b|lp]; try (split; reflexivity).
  cbv zeta. destruct (readdirSync w (stripTrailingSlash lp)) as [files|];
    [|split; reflexivity].
  destruct (Nat.eqb _ 0); [split; reflexivity|].
  pose proof (uploads_events_kind w (toStr (s3Bucket p)) vpath (stripTrailingSlash lp)
                (jsFiles (sourceMaps p) files) (cssFiles (sourceMaps p) files)) as Hk.
  assert (Hs : filter is_spawn (fst (promise_all (uploads w (toStr (s3Bucket p)) vpath
                 (stripTrailingSlash lp) (jsFiles (sourceMaps p) files)
                 (cssFiles (sourceMaps p) files)))) = []).
  { apply filter_none. eapply Forall_impl; [|exact Hk]. now intros e [H _]. }
  assert (Hl : filter is_list (fst (promise_all (uploads w (toStr (s3Bucket p)) vpath
                 (stripTrailingSlash lp) (jsFiles (sourceMaps p) files)
                 (cssFiles (sourceMaps p) files)))) = []).
  { apply filter_none. eapply Forall_impl; [|exact Hk]. now intros e [_ H]. }
  destruct (snd (promise_all _)); cbn [fst filter is_spawn is_list];
    rewrite ?filter_app, Hs, Hl; split; reflexivity.
Qed.

Lemma errlog_kind (t : list Event) :
  forallb is_errlog t = true ->
  filter is_spawn t = [] /\ filter is_list t = [].
Proof.
  induction t as [|e t IH]; [split; reflexivity|].
  cbn [forallb]. intros H. apply andb_prop in H. destruct H as [He Ht].
  destruct e; try discriminate He. cbn. now apply IH.
Qed.

(** X25: a run sends at most one list request and spawns at most one build.
    The list request asks the configured bucket for the keys that begin with
    the version path [s3Path + '/' + version]; the build gets [deslashUrl]
    of the base URL, a slash, the version path and a slash as its
    [PUBLIC_URL]. *)
Theorem one_list_request_and_one_build (w : World) (p : Program) :
  (filter is_list (fst (run w p)) = [] \/
   exists v, snd (resolve_version w p) = Ok v /\
     filter is_list (fst (run w p)) =
     [ListObjects (toStr (s3Bucket p)) (versionS3Path p v)]) /\
  (filter is_spawn (fst (run w p)) = [] \/
   exists v, snd (resolve_version w p) = Ok v /\
     filter is_spawn (fst (run w p)) = [Spawn (public_url p v)]).
Proof.
  by_shape w p.
  - split; left; reflexivity.
  - destruct (errlog_kind _ (unhandledRejection_errlog err)) as [Hs Hl].
    split; left; assumption.
  - split; [right; exists v; split; [exact Hver | reflexivity] | left; reflexivity].
  - split; [right; exists v; split; [exact Hver | reflexivity] | left; reflexivity].
  - destruct (build_rejected w _ _ _ Hbuild) as [_ (line & -> & Hline)].
    destruct (errlog_kind _ Hline) as [Hs1 Hl1].
    destruct (errlog_kind _ (unhandledRejection_errlog err)) as [Hs2 Hl2].
    split; right; exists v; (split; [exact Hver|]);
      rewrite !filter_app; destruct (found_in keys p v);
      cbn [head_events overwrite_lines filter is_list is_spawn app];
      rewrite ?filter_app, ?Hs1, ?Hl1, ?Hs2, ?Hl2; reflexivity.
  - destruct (publish_built_kind w p (versionS3Path p v)) as [Hs1 Hl1].
    assert (Htail : filter is_spawn
                      match snd (publish_built w p (versionS3Path p v)) with
                      | Throw e => unhandledRejection e
                      | _ => []
                      end = [] /\
                    filter is_list
                      match snd (publish_built w p (versionS3Path p v)) with
                      | Throw e => unhandledRejection e
                      | _ => []
                      end = []).
    { destruct (snd (publish_built w p (versionS3Path p v))) as [[]|c|e];
        try (split; reflexivity).
      apply errlog_kind, unhandledRejection_errlog. }
    destruct Htail as [Hs2 Hl2].
    split; right; exists v; (split; [exact Hver|]);
      rewrite !filter_app; destruct (found_in keys p v);
      cbn [head_events overwrite_lines filter is_list is_spawn app];
      rewrite ?filter_app, ?Hs1, ?Hl1, ?Hs2, ?Hl2; reflexivity.
Qed.

(** ** The further properties at sample inputs *)

Lemma deslashUrl_clean_url_unchanged_witness :
  has_double_slash "/static/app/1.0/" = false /\
  deslashUrl "/static/app/1.0/" = "/static/app/1.0/".
Proof.
  split; [reflexivity|].
  apply (deslashUrl_clean_url_unchanged "/static/app/1.0/"). reflexivity.
Defined.

Lemma deslashUrl_append_name_witness :
  has_slash "main.js" = false /\
  deslashUrl ("https://cdn.example.com//app/1.2/" ++ "main.js")
  = deslashUrl "https://cdn.example.com//app/1.2/" ++ "main.js".
Proof.
  split; [reflexivity|].
  apply (deslashUrl_append_name "https://cdn.example.com//app/1.2/" "main.js").
  reflexivity.
Defined.

Lemma deslashUrl_keeps_scheme_separator_witness :
  exists o, deslashUrl ("http" ++ String "s" ("://" ++ "cdn.example.com//app"))
            = "http" ++ String "s" ("://" ++ o).
Proof.
  apply (deslashUrl_keeps_scheme_separator "http" "s" "cdn.example.com//app");
    reflexivity.
Defined.

Lemma deslashUrl_idempotent_below_three_witness :
  has_triple_slash "https://cdn.example.com//app//1.2/" = false /\
  deslashUrl (deslashUrl "https://cdn.example.com//app//1.2/")
  = deslashUrl "https://cdn.example.com//app//1.2/".
Proof.
  split; [reflexivity|].
  apply (deslashUrl_idempotent_below_three "https://cdn.example.com//app//1.2/").
  reflexivity.
Defined.

Lemma deslashUrl_no_double_below_three_witness :
  has_colon "/static//app//1.0/" = false /\
  has_triple_slash "/static//app//1.0/" = false /\
  has_double_slash (deslashUrl "/static//app//1.0/") = false.
Proof.
  split; [reflexivity|]. split; [reflexivity|].
  apply (deslashUrl_no_double_below_three "/static//app//1.0/"); reflexivity.
Defined.

Lemma scripts_and_stylesheets_disjoint_witness :
  In "app.js.map" (jsFiles (JBool true) listing) /\
  ~ In "app.js.map" (cssFiles (JBool true) listing).
Proof.
  split; [vm_compute; auto|].
  apply (scripts_and_stylesheets_disjoint (JBool true) listing "app.js.map").
  vm_compute. auto.
Defined.

Lemma no_map_file_without_flag_witness :
  truthy (JBool false) = false /\
  In "app.js" (jsFiles (JBool false) listing ++ cssFiles (JBool false) listing)%list /\
  endsWith "app.js" ".map" = false.
Proof.
  split; [reflexivity|]. split; [vm_compute; auto|].
  apply (no_map_file_without_flag (JBool false) listing "app.js").
  - reflexivity.
  - vm_compute. auto.
Defined.

Lemma stripTrailingSlash_without_slash_witness :
  endsWith "build/static" "/" = false /\
  stripTrailingSlash "build/static" = "build/static".
Proof.
  split; [reflexivity|].
  apply (stripTrailingSlash_without_slash "build/static"). reflexivity.
Defined.

(** Both [--s3-path] and [--local-path] are missing; [s3Path] comes first in
    the list and is the one named. *)
Lemma first_missing_option_is_reported_witness :
  first_missing bucket_only_program = Some "s3Path" /\
  run fresh_world bucket_only_program =
  ([Log "Missing required argument s3Path"], Exited 1%Z).
Proof.
  split; [reflexivity|].
  apply (first_missing_option_is_reported fresh_world bucket_only_program "s3Path").
  reflexivity.
Defined.

Lemma unresolved_version_crashes_first_witness :
  forallb is_errlog (fst (run no_manifest_world (demo_program JUndefined))) = true /\
  exists e, snd (run no_manifest_world (demo_program JUndefined)) = Crashed e.
Proof.
  apply (unresolved_version_crashes_first no_manifest_world (demo_program JUndefined));
    reflexivity.
Defined.

Lemma failed_list_request_stops_the_run_witness :
  none_of is_spawn (fst (run offline_world (demo_program JUndefined))) /\
  none_of is_upload (fst (run offline_world (demo_program JUndefined))) /\
  exit_status (snd (run offline_world (demo_program JUndefined))) <> 0%Z.
Proof.
  apply (failed_list_request_stops_the_run offline_world (demo_program JUndefined)).
  reflexivity.
Defined.

(** The build fails at the [PUBLIC_URL] of this run only; it would succeed at
    any other one. *)
Lemma failed_build_stops_the_run_witness :
  public_url (demo_program JUndefined) (JString "1.0.0")
    = "https://cdn.example.com/app/1.0.0/" /\
  build_outcome picky_build_world "https://cdn.example.com/app/1.0.1/" = BuildExit 0 /\
  none_of is_upload (fst (run picky_build_world (demo_program JUndefined))) /\
  (forall path, ~ In (ReadDir path) (fst (run picky_build_world (demo_program JUndefined)))) /\
  exit_status (snd (run picky_build_world (demo_program JUndefined))) <> 0%Z /\
  snd (run picky_build_world (demo_program JUndefined)) = Crashed (ErrorCode 2).
Proof.
  split; [reflexivity|]. split; [reflexivity|].
  destruct (failed_build_stops_the_run picky_build_world (demo_program JUndefined)
              (JString "1.0.0")) as (H1 & H2 & H3).
  - reflexivity.
  - vm_compute. discriminate.
  - split; [exact H1|]. split; [exact H2|]. split; [exact H3 | reflexivity].
Defined.

Lemma unreadable_directory_stops_the_run_witness :
  none_of is_upload (fst (run unreadable_world (demo_program JUndefined))) /\
  exit_status (snd (run unreadable_world (demo_program JUndefined))) <> 0%Z /\
  (In (ReadDir "build/static") (fst (run unreadable_world (demo_program JUndefined))) ->
   snd (run unreadable_world (demo_program JUndefined)) = Exited 1%Z /\
   In (Log "Couldn't read script path dir.")
      (fst (run unreadable_world (demo_program JUndefined)))).
Proof.
  apply (unreadable_directory_stops_the_run unreadable_world (demo_program JUndefined)
           "build/static/"); reflexivity.
Defined.

Lemma uploads_only_behind_the_build_witness :
  let t := fst (run demo_world (demo_program (JBool true))) in
  nth 7 t (Log "") =
    Uploading "bucket" "app/1.2/app.js" "build/static/app.js" "application/javascript" /\
  exists url path,
    In (Spawn url) (firstn 7 t) /\ build_outcome demo_world url = BuildExit 0 /\
    In (ReadDir path) (firstn 7 t).
Proof.
  split; [reflexivity|].
  apply (uploads_only_behind_the_build demo_world (demo_program (JBool true))
           (firstn 7 (fst (run demo_world (demo_program (JBool true)))))
           (skipn 8 (fst (run demo_world (demo_program (JBool true)))))
           (Uploading "bucket" "app/1.2/app.js" "build/static/app.js"
              "application/javascript"));
    reflexivity.
Defined.

Lemma writes_stay_under_the_version_path_witness :
  exists v lp files f,
    snd (resolve_version demo_world (demo_program (JBool true))) = Ok v /\
    localPath (demo_program (JBool true)) = JString lp /\
    readdirSync demo_world (stripTrailingSlash lp) = Some files /\
    "bucket" = toStr (s3Bucket (demo_program (JBool true))) /\
    "app/1.2/style.css" = versionS3Path (demo_program (JBool true)) v ++ "/" ++ f /\
    readFileSync demo_world (stripTrailingSlash lp ++ "/" ++ f)
      = Some "body of build/static/style.css" /\
    "public-read" = "public-read" /\
    (("text/css" = "application/javascript" /\
      In f (jsFiles (sourceMaps (demo_program (JBool true))) files)) \/
     ("text/css" = "text/css" /\
      In f (cssFiles (sourceMaps (demo_program (JBool true))) files))).
Proof.
  apply (writes_stay_under_the_version_path demo_world (demo_program (JBool true))
           "bucket" "app/1.2/style.css" "body of build/static/style.css"
           "public-read" "text/css").
  vm_compute. do 12 right. left. reflexivity.
Defined.

Lemma reported_url_lies_under_public_url_witness :
  snd (run demo_world (demo_program (JBool true))) = Completed /\
  exists url,
    In (Spawn url) (fst (run demo_world (demo_program (JBool true)))) /\
    last (fst (run demo_world (demo_program (JBool true)))) (Log "")
    = Log (url ++ "main.js").
Proof.
  split; [reflexivity|].
  apply (reported_url_lies_under_public_url demo_world (demo_program (JBool true))).
  reflexivity.
Defined.

Lemma force_publishes_like_a_fresh_version_witness :
  snd (run demo_world (demo_program (JBool true)))
  = snd (run (with_bucket_keys demo_world (fun _ => Some [])) (demo_program (JBool true))) /\
  filter (fun e => negb (is_log e)) (fst (run demo_world (demo_program (JBool true)))) =
  filter (fun e => negb (is_log e))
    (fst (run (with_bucket_keys demo_world (fun _ => Some [])) (demo_program (JBool true)))).
Proof.
  apply (force_publishes_like_a_fresh_version demo_world (demo_program (JBool true))
           ["app/1.2.3/main.js"]); reflexivity.
Defined.

Lemma app_version_overrides_manifest_witness :
  run (with_package_version fresh_world None) no_base_program
  = run fresh_world no_base_program.
Proof.
  apply (app_version_overrides_manifest fresh_world no_base_program None).
  reflexivity.
Defined.

Lemma force_is_idle_on_a_fresh_version_witness :
  run fresh_world (with_force no_base_program (JBool true))
  = run fresh_world no_base_program.
Proof.
  apply (force_is_idle_on_a_fresh_version fresh_world no_base_program (JString "2.0")
           (JBool true) []); reflexivity.
Defined.

(** The put request for [main.js] is refused: the run is rejected, and the
    style sheet has been sent all the same. *)
Lemma failing_upload_leaves_the_others_sent_witness :
  ~ upload_succeeds partial_world "bucket" "app/1.0.0" "build/static" "main.js" /\
  In (PutObject "bucket" "app/1.0.0/main.css" "body of build/static/main.css"
        "public-read" "text/css")
     (fst (run partial_world (demo_program JUndefined))) /\
  exists e, snd (run partial_world (demo_program JUndefined)) = Crashed e.
Proof.
  assert (Hfail : ~ upload_succeeds partial_world "bucket" "app/1.0.0" "build/static"
                      "main.js").
  { intros [_ H]. discriminate H. }
  split; [exact Hfail|].
  destruct (failing_upload_leaves_the_others_sent partial_world (demo_program JUndefined)
              (JString "1.0.0") "build/static/" ["main.js"; "main.css"])
    as (_ & Hcss & Hcrash).
  - reflexivity.
  - reflexivity.
  - reflexivity.
  - discriminate.
  - vm_compute. do 4 right. left. reflexivity.
  - split.
    + apply (Hcss "main.css" "body of build/static/main.css"); [vm_compute; auto | reflexivity].
    + apply (Hcrash "main.js"); [vm_compute; auto | exact Hfail].
Defined.
